(** * countdown-bot.js: a shallow embedding and its verified properties

    The program posts a countdown to a fixed target instant to a Slack
    webhook, once at start-up and then once per minute, until the target
    instant has passed.

    Conventions of the embedding.
    - A JavaScript number that holds an integer (a time value in
      milliseconds, a duration field, an HTTP status code, a string length)
      is a [Z].  Time values are integers of at most 8.64e15 in absolute
      value and the target is fixed, so every difference the program forms
      is an integer below 2^53, where the subtraction, the remainder and the
      floor of a quotient of the source's doubles are exact.
    - A JavaScript string is the [string] of its UTF-8 bytes, which is what
      the source file holds and what [req.write] puts on the wire.  Its
      [.length] counts UTF-16 code units and is [JsString.length].  A
      [Buffer] is the [string] of its bytes, well formed or not, and
      [Buffer.toString] decodes it.
    - The clock, the network and the process signals are inputs: the clock
      reading is an argument, the end of a delivery and the firing of the
      timer are events of the driver. *)

From Stdlib Require Import ZArith List String Ascii Bool Lia.
From Stdlib Require Import DecimalString DecimalZ.
Import ListNotations.

#[local] Set Warnings "-register-all".

Open Scope string_scope.
Open Scope Z_scope.

(** ** JavaScript strings *)

Module JsString.

(** UTF-16 code units that the UTF-8 sequence started (or continued) by
    one byte stands for: an ASCII byte and the lead byte of a two- or
    three-byte sequence are one unit, the lead byte of a four-byte
    sequence is a surrogate pair, a continuation byte adds nothing. *)
Definition units_of_byte (c : ascii) : nat :=
  let n := nat_of_ascii c in
  if (n <? 128)%nat then 1%nat
  else if (n <? 192)%nat then 0%nat
  else if (n <? 240)%nat then 1%nat
  else 2%nat.

(** [s.length] *)
Fixpoint length (s : string) : nat :=
  match s with
  | EmptyString => 0%nat
  | String c rest => (units_of_byte c + length rest)%nat
  end.

(** [Buffer.byteLength(s)]: the bytes [req.write(s)] sends. *)
Definition byteLength (s : string) : nat := String.length s.

(** [String(n)] and [`${n}`] for an integral number below 1e21. *)
Definition ofNumber (n : Z) : string :=
  NilZero.string_of_int (Z.to_int n).

(** The filler of [padStart]: [fillLen] characters read off [filler]
    over and over, [cur] being what is left of the current copy. *)
Fixpoint fill (fillLen : nat) (filler cur : string) : string :=
  match fillLen with
  | O => EmptyString
  | S k =>
      match cur with
      | String c rest => String c (fill k filler rest)
      | EmptyString =>
          match filler with
          | String c rest => String c (fill k filler rest)
          | EmptyString => EmptyString
          end
      end
  end.

(** [s.padStart(targetLength, padString)], for an ASCII [padString]
    (the source passes ['0'] only). *)
Definition padStart (s : string) (targetLength : Z) (padString : string)
  : string :=
  let stringLength := Z.of_nat (length s) in
  if targetLength <=? stringLength then s
  else fill (Z.to_nat (targetLength - stringLength)) padString EmptyString ++ s.

End JsString.

(** ** Time Calculator *)

(** [Math.floor(x / y)] on integral numbers, [y > 0]. *)
Definition Math_floor_div (x y : Z) : Z := x / y.

(** [x % y]: the remainder takes the sign of the dividend. *)
Definition js_rem (x y : Z) : Z := Z.rem x y.

Record TimeRemaining : Set := mkTimeRemaining
  { days : Z; hours : Z; minutes : Z; seconds : Z; hasStarted : bool }.

(** [new Date('2025-07-18T17:00:00-07:00')] as a time value. *)
Definition TARGET_DATE : Z := 1752883200000.

Definition UPDATE_INTERVAL : Z := 60000.

(** [getTimeRemaining()], with the target and the reading of [new Date()]
    as arguments. *)
Definition getTimeRemaining (target now : Z) : TimeRemaining :=
  let difference := target - now in
  if difference <=? 0 then
    {| days := 0; hours := 0; minutes := 0; seconds := 0; hasStarted := true |}
  else
    let days := Math_floor_div difference (1000 * 60 * 60 * 24) in
    let hours :=
      Math_floor_div (js_rem difference (1000 * 60 * 60 * 24)) (1000 * 60 * 60) in
    let minutes :=
      Math_floor_div (js_rem difference (1000 * 60 * 60)) (1000 * 60) in
    let seconds := Math_floor_div (js_rem difference (1000 * 60)) 1000 in
    {| days := days; hours := hours; minutes := minutes; seconds := seconds;
       hasStarted := false |}.

(** ** Message Formatter *)

(** The values the message is built from: object literals keep the order
    of their properties. *)
Inductive JsValue : Set :=
  | JStr (s : string)
  | JNum (n : Z)
  | JArr (items : list JsValue)
  | JObj (props : list (string * JsValue)).

(** The line feed of the escape [\n] in a template literal. *)
Definition LF : ascii := ascii_of_nat 10.

Definition mrkdwn (text : string) : JsValue :=
  JObj [("type", JStr "mrkdwn"); ("text", JStr text)].

(** [formatCountdownMessage(timeRemaining)] *)
Definition formatCountdownMessage (timeRemaining : TimeRemaining) : JsValue :=
  if hasStarted timeRemaining then
    JObj [("blocks", JArr [
      JObj [("type", JStr "section");
            ("text", mrkdwn "🎉 *The Dreamers in Tech Hackathon has begun!* 🎉")]
    ])]
  else
    let formattedTime :=
      JsString.padStart (JsString.ofNumber (hours timeRemaining)) 2 "0" ++ ":" ++
      JsString.padStart (JsString.ofNumber (minutes timeRemaining)) 2 "0" ++ ":" ++
      JsString.padStart (JsString.ofNumber (seconds timeRemaining)) 2 "0" in
    JObj [("blocks", JArr [
      JObj [("type", JStr "header");
            ("text", JObj [("type", JStr "plain_text");
                           ("text", JStr "🚀 Dreamers in Tech Hackathon Countdown")])];
      JObj [("type", JStr "section");
            ("text", mrkdwn "*Kick-off Ceremony begins in:*")];
      JObj [("type", JStr "section");
            ("fields", JArr [
               mrkdwn ("*Days*" ++ String LF (JsString.ofNumber (days timeRemaining)));
               mrkdwn ("*Time (HH:MM:SS)*" ++ String LF formattedTime)
             ])];
      JObj [("type", JStr "context");
            ("elements", JArr [
               mrkdwn "📅 Friday, July 18 • 5pm PST / 7pm CST / 8pm EST"
             ])]
    ])].

(** ** JSON.stringify *)

Module JSON.

Definition hex (n : nat) : ascii :=
  match get n "0123456789abcdef" with
  | Some c => c
  | None => "0"%char
  end.

Definition DQUOTE : ascii := ascii_of_nat 34.
Definition BACKSLASH : ascii := ascii_of_nat 92.

Definition escape (c : ascii) (rest : string) : string :=
  String BACKSLASH (String c rest).

(** One byte of a string inside the quotes.  Bytes of a multi-byte
    character (128 and above) go out as they are. *)
Definition quote_byte (c : ascii) (rest : string) : string :=
  let n := nat_of_ascii c in
  if (n =? 8)%nat then escape "b" rest
  else if (n =? 9)%nat then escape "t" rest
  else if (n =? 10)%nat then escape "n" rest
  else if (n =? 12)%nat then escape "f" rest
  else if (n =? 13)%nat then escape "r" rest
  else if (n =? 34)%nat then escape DQUOTE rest
  else if (n =? 92)%nat then escape BACKSLASH rest
  else if (n <? 32)%nat then
    escape "u" (String "0" (String "0"
      (String (hex (n / 16)) (String (hex (n mod 16)) rest))))
  else String c rest.

Fixpoint quote_bytes (s : string) (rest : string) : string :=
  match s with
  | EmptyString => rest
  | String c s' => quote_byte c (quote_bytes s' rest)
  end.

Definition quote (s : string) : string :=
  String DQUOTE (quote_bytes s (String DQUOTE EmptyString)).

Fixpoint commas (parts : list string) : string :=
  match parts with
  | [] => EmptyString
  | [p] => p
  | p :: more => p ++ "," ++ commas more
  end.

Fixpoint stringify (v : JsValue) : string :=
  match v with
  | JStr s => quote s
  | JNum n => JsString.ofNumber n
  | JArr items => "[" ++ commas (map stringify items) ++ "]"
  | JObj props =>
      "{" ++ commas (map (fun kv => quote (fst kv) ++ ":" ++ stringify (snd kv))
                         props) ++ "}"
  end.

End JSON.

(** ** Buffers *)

Module Buffer.

(** U+FFFD, the replacement character, in UTF-8. *)
Definition REPLACEMENT : string :=
  String (ascii_of_nat 239)
    (String (ascii_of_nat 191) (String (ascii_of_nat 189) EmptyString)).

(** The UTF-8 decoder between two bytes: at a character boundary, or
    within a multi-byte character of which the bytes [seen] have been
    read, [needed] more are due and the next one must lie between [lower]
    and [upper]. *)
Inductive Pending : Set :=
  | Idle
  | Within (seen : string) (needed : nat) (lower upper : nat).

Definition in_range (lower upper : nat) (c : ascii) : bool :=
  ((lower <=? nat_of_ascii c) && (nat_of_ascii c <=? upper))%nat.

(** A byte at a character boundary: an ASCII byte is a character, a lead
    byte opens a sequence of two, three or four bytes (with the narrower
    range of the second byte after E0, ED, F0 and F4), any other byte is
    replaced. *)
Definition lead (c : ascii) : string * Pending :=
  let n := nat_of_ascii c in
  let one := String c EmptyString in
  if (n <? 128)%nat then (one, Idle)
  else if in_range 194 223 c then (EmptyString, Within one 1 128 191)
  else if in_range 224 239 c then
    (EmptyString,
     Within one 2 (if (n =? 224)%nat then 160%nat else 128%nat)
                  (if (n =? 237)%nat then 159%nat else 191%nat))
  else if in_range 240 244 c then
    (EmptyString,
     Within one 3 (if (n =? 240)%nat then 144%nat else 128%nat)
                  (if (n =? 244)%nat then 143%nat else 191%nat))
  else (REPLACEMENT, Idle).

(** One byte: what the decoder emits and where it stands afterwards.  A
    byte that cannot continue the open sequence ends it with a replacement
    character and is read again at the boundary. *)
Definition feed (st : Pending) (c : ascii) : string * Pending :=
  match st with
  | Idle => lead c
  | Within seen needed lower upper =>
      if in_range lower upper c then
        match needed with
        | S (S more) =>
            (EmptyString, Within (seen ++ String c EmptyString) (S more) 128 191)
        | _ => (seen ++ String c EmptyString, Idle)
        end
      else
        let (emitted, st') := lead c in (REPLACEMENT ++ emitted, st')
  end.

(** The end of the buffer: an open sequence is replaced. *)
Definition flush (st : Pending) : string :=
  match st with
  | Idle => EmptyString
  | Within _ _ _ _ => REPLACEMENT
  end.

Fixpoint decode (st : Pending) (bytes : string) : string :=
  match bytes with
  | EmptyString => flush st
  | String c rest =>
      let (emitted, st') := feed st c in emitted ++ decode st' rest
  end.

(** Where the decoder stands after [bytes]. *)
Fixpoint pending_after (st : Pending) (bytes : string) : Pending :=
  match bytes with
  | EmptyString => st
  | String c rest => pending_after (snd (feed st c)) rest
  end.

(** [buf.toString()], which [data + buf] calls: the bytes decoded as
    UTF-8, every ill-formed sequence replaced by U+FFFD. *)
Definition toString (bytes : string) : string := decode Idle bytes.

End Buffer.

(** ** Delivery Client *)

(** An error object: [new Error(message)] has the name [Error]. *)
Record JsError : Set := mkError { name : string; message : string }.

Definition Error (message : string) : JsError :=
  {| name := "Error"; message := message |}.

(** What [new URL(...)] exposes of a parsed address. *)
Record URL : Set := mkURL
  { protocol : string; hostname : string; port : string;
    pathname : string; search : string; hash : string }.

Inductive HeaderValue : Set :=
  | HStr (s : string)
  | HNum (n : Z).

(** The [options] object handed to [https.request]. *)
Record RequestOptions : Set := mkOptions
  { opt_hostname : string;
    opt_path : string;
    opt_method : string;
    opt_headers : list (string * HeaderValue) }.

(** One call of [https.request(options, ...)] followed by
    [req.write(data); req.end()]: [written] is the body put on the wire. *)
Record Request : Set := mkRequest
  { options : RequestOptions; written : string }.

Inductive LogEntry : Set :=
  | console_log (text : string)
  | console_error (text : string) (detail : option JsError).

(** How the network ends a request: a complete response, whose body
    arrives in chunks (the bytes of each [Buffer]), or the ['error'] event
    of the request. *)
Inductive Outcome : Set :=
  | Response (statusCode : Z) (chunks : list string)
  | RequestError (error : JsError).

(** The settled promise of [sendToSlack]. *)
Inductive Settled : Set :=
  | Resolved (value : string)
  | Rejected (reason : JsError).

(** [responseData += chunk] over the ['data'] events.  No encoding is set
    on the response, so every chunk is a [Buffer] and is decoded on its own
    when it is appended. *)
Definition responseData (chunks : list string) : string :=
  fold_left (fun data chunk => data ++ Buffer.toString chunk) chunks EmptyString.

Section Delivery.

(** [new URL(s)] of the platform: the parsed address, or the [TypeError]
    it throws. *)
Variable URL_parse : string -> JsError + URL.

(** The executor of the promise up to [req.end()]: the request it
    issues, or the error [new URL] throws (which rejects the promise
    before any request is made). *)
Definition sendToSlack_request (SLACK_WEBHOOK_URL : string)
  (message : JsValue) : JsError + Request :=
  let data := JSON.stringify message in
  match URL_parse SLACK_WEBHOOK_URL with
  | inl thrown => inl thrown
  | inr url =>
      let options :=
        {| opt_hostname := hostname url;
           opt_path := pathname url;
           opt_method := "POST";
           opt_headers :=
             [("Content-Type", HStr "application/json");
              ("Content-Length", HNum (Z.of_nat (JsString.length data)))] |} in
      inr {| options := options; written := data |}
  end.

End Delivery.

(** The callbacks of the request: what is logged and how the promise
    settles when the network ends the request with [o]. *)
Definition sendToSlack_settle (o : Outcome) : list LogEntry * Settled :=
  match o with
  | Response statusCode chunks =>
      let responseData := responseData chunks in
      if statusCode =? 200 then
        ([console_log "Successfully sent countdown update to Slack"],
         Resolved responseData)
      else
        ([console_error
            ("Slack API error: " ++ JsString.ofNumber statusCode ++ " - "
               ++ responseData) None],
         Rejected (Error ("Slack API returned status "
                            ++ JsString.ofNumber statusCode)))
  | RequestError error =>
      ([console_error "Error sending to Slack:" (Some error)],
       Rejected error)
  end.

(** ** Scheduler/Driver *)

(** The state of the process between two callbacks.
    - [countdownInterval]: the repeating timer is armed;
    - [awaiting]: the runs of [updateCountdown] suspended at [await], oldest
      first, each with the [timeRemaining] it holds;
    - [requests]: the requests issued so far;
    - [ticks]: the calls of [updateCountdown] so far;
    - [console]: what was logged;
    - [exited]: the status [process.exit] was called with. *)
Record Process : Set := mkProcess
  { countdownInterval : bool;
    awaiting : list TimeRemaining;
    requests : list Request;
    ticks : nat;
    console : list LogEntry;
    exited : option Z }.

(** What the event loop can deliver to the process. *)
Inductive Event : Set :=
  | TimerFires (now : Z)
  | DeliveryEnds (k : nat) (o : Outcome)
  | SIGINT
  | UncaughtException (error : JsError).

(** [!v] for the value of an environment variable. *)
Definition js_not (v : option string) : bool :=
  match v with
  | None => true
  | Some EmptyString => true
  | Some (String _ _) => false
  end.

Definition drop_nth {A : Type} (k : nat) (l : list A) : list A :=
  (firstn k l ++ skipn (S k) l)%list.

Section Driver.

Variable URL_parse : string -> JsError + URL.

(** The configured address, read once from the environment. *)
Variable SLACK_WEBHOOK_URL : string.

(** [updateCountdown()] from its call to its [await] (or, when the
    promise is rejected at once, through its [catch]). *)
Definition updateCountdown_begin (now : Z) (st : Process) : Process :=
  let timeRemaining := getTimeRemaining TARGET_DATE now in
  let message := formatCountdownMessage timeRemaining in
  match sendToSlack_request URL_parse SLACK_WEBHOOK_URL message with
  | inr req =>
      {| countdownInterval := countdownInterval st;
         awaiting := (awaiting st ++ [timeRemaining])%list;
         requests := (requests st ++ [req])%list;
         ticks := S (ticks st);
         console := console st;
         exited := exited st |}
  | inl error =>
      {| countdownInterval := countdownInterval st;
         awaiting := awaiting st;
         requests := requests st;
         ticks := S (ticks st);
         console :=
           (console st
              ++ [console_error "Failed to update countdown:" (Some error)])%list;
         exited := exited st |}
  end.

(** [updateCountdown()] from its [await] to its end, once the network
    has ended the request with [o]. *)
Definition updateCountdown_resume (timeRemaining : TimeRemaining)
  (o : Outcome) (st : Process) : Process :=
  let (logged, settled) := sendToSlack_settle o in
  match settled with
  | Resolved _ =>
      if hasStarted timeRemaining then
        {| countdownInterval := false;
           awaiting := awaiting st;
           requests := requests st;
           ticks := ticks st;
           console :=
             (console st ++ logged
                ++ [console_log "Event has started! Stopping countdown updates."])%list;
           exited := exited st |}
      else
        {| countdownInterval := countdownInterval st;
           awaiting := awaiting st;
           requests := requests st;
           ticks := ticks st;
           console := (console st ++ logged)%list;
           exited := exited st |}
  | Rejected error =>
      {| countdownInterval := countdownInterval st;
         awaiting := awaiting st;
         requests := requests st;
         ticks := ticks st;
         console :=
           (console st ++ logged
              ++ [console_error "Failed to update countdown:" (Some error)])%list;
         exited := exited st |}
  end.

(** One callback.  Nothing runs after [process.exit]; a cleared timer
    does not fire; [DeliveryEnds k o] ends the request of the [k]-th
    suspended run. *)
Definition step (st : Process) (ev : Event) : Process :=
  match exited st with
  | Some _ => st
  | None =>
      match ev with
      | TimerFires now =>
          if countdownInterval st then updateCountdown_begin now st else st
      | DeliveryEnds k o =>
          match nth_error (awaiting st) k with
          | None => st
          | Some timeRemaining =>
              updateCountdown_resume timeRemaining o
                {| countdownInterval := countdownInterval st;
                   awaiting := drop_nth k (awaiting st);
                   requests := requests st;
                   ticks := ticks st;
                   console := console st;
                   exited := exited st |}
          end
      | SIGINT =>
          {| countdownInterval := false;
             awaiting := awaiting st;
             requests := requests st;
             ticks := ticks st;
             console :=
               (console st
                  ++ [console_log (String LF "Shutting down countdown bot...")])%list;
             exited := Some 0 |}
      | UncaughtException error =>
          {| countdownInterval := countdownInterval st;
             awaiting := awaiting st;
             requests := requests st;
             ticks := ticks st;
             console :=
               (console st
                  ++ [console_error "Uncaught exception:" (Some error)])%list;
             exited := exited st |}
      end
  end.

Definition run (st : Process) (events : list Event) : Process :=
  fold_left step events st.

End Driver.

(** The script from its first line to the end of its synchronous part:
    [env] is [process.env.SLACK_WEBHOOK_URL], [now] the clock at the first
    call of [updateCountdown], [TARGET_DATE_text] is [String(TARGET_DATE)],
    which depends on the time zone of the host. *)
Definition start (URL_parse : string -> JsError + URL)
  (TARGET_DATE_text : string) (env : option string) (now : Z) : Process :=
  if js_not env then
    {| countdownInterval := false;
       awaiting := [];
       requests := [];
       ticks := 0;
       console :=
         [console_error "ERROR: SLACK_WEBHOOK_URL environment variable is not set" None;
          console_error "Please set it to your Slack incoming webhook URL" None];
       exited := Some 1 |}
  else
    let SLACK_WEBHOOK_URL := match env with Some v => v | None => EmptyString end in
    let st :=
      updateCountdown_begin URL_parse SLACK_WEBHOOK_URL now
        {| countdownInterval := false;
           awaiting := [];
           requests := [];
           ticks := 0;
           console :=
             [console_log "Starting Dreamers in Tech Hackathon countdown bot...";
              console_log ("Target date: " ++ TARGET_DATE_text);
              console_log ("Update interval: "
                             ++ JsString.ofNumber (UPDATE_INTERVAL / 1000)
                             ++ " seconds")];
           exited := None |} in
    {| countdownInterval := true;
       awaiting := awaiting st;
       requests := requests st;
       ticks := ticks st;
       console := console st;
       exited := exited st |}.

(** The whole process: start-up, then the callbacks the event loop
    delivers. *)
Definition program (URL_parse : string -> JsError + URL)
  (TARGET_DATE_text : string) (env : option string) (now : Z)
  (events : list Event) : Process :=
  let SLACK_WEBHOOK_URL := match env with Some v => v | None => EmptyString end in
  run URL_parse SLACK_WEBHOOK_URL (start URL_parse TARGET_DATE_text env now) events.

(** ** Definitions used by the statements *)

(** The decimal digit [n] ([0 <= n <= 9]) as a character. *)
Definition digit_char (n : Z) : ascii := ascii_of_nat (48 + Z.to_nat n).

(** A number written with exactly two decimal digits. *)
Definition two_digits (n : Z) : string :=
  String (digit_char (n / 10)) (String (digit_char (n mod 10)) EmptyString).

(** [HH:MM:SS] as the specification words it. *)
Definition HH_MM_SS (h m s : Z) : string :=
  two_digits h ++ ":" ++ two_digits m ++ ":" ++ two_digits s.

(** A delivery that does not resolve: any status but 200, or an error of
    the request. *)
Definition failed (o : Outcome) : Prop :=
  match o with
  | Response statusCode _ => statusCode <> 200
  | RequestError _ => True
  end.

(** The bytes of a string beyond its count of UTF-16 code units: what
    [data.length] misses of the body [req.write(data)] sends. *)
Definition excess (s : string) : Z :=
  Z.of_nat (JsString.byteLength s) - Z.of_nat (JsString.length s).

(** The value of a header of a request. *)
Fixpoint header (key : string) (headers : list (string * HeaderValue))
  : option HeaderValue :=
  match headers with
  | [] => None
  | (k, v) :: more => if String.eqb k key then Some v else header key more
  end.

(** The longest prefix of [s] free of the characters [stop], and what
    follows it. *)
Fixpoint until (stop : ascii -> bool) (s : string) : string * string :=
  match s with
  | EmptyString => (EmptyString, EmptyString)
  | String c rest =>
      if stop c then (EmptyString, s)
      else let (before, after) := until stop rest in (String c before, after)
  end.

Definition is_one_of (chars : string) (c : ascii) : bool :=
  match index 0 (String c EmptyString) chars with
  | Some _ => true
  | None => false
  end.

(** A parser for plain [https] addresses (host, path, query, fragment; no
    credentials, port or escapes), where it agrees with [new URL]; it
    stands for the parser of the platform in the examples. *)
Definition https_URL (s : string) : JsError + URL :=
  let scheme := "https://" in
  if prefix scheme s then
    let rest := substring (String.length scheme)
                          (String.length s - String.length scheme) s in
    let (host, after_host) := until (is_one_of "/?#") rest in
    let (path, after_path) := until (is_one_of "?#") after_host in
    let (query, fragment) := until (is_one_of "#") after_path in
    match host with
    | EmptyString => inl {| name := "TypeError"; message := "Invalid URL" |}
    | _ =>
        inr {| protocol := "https:";
               hostname := host;
               port := EmptyString;
               pathname := match path with EmptyString => "/" | _ => path end;
               search := if String.eqb query "?" then EmptyString else query;
               hash := if String.eqb fragment "#" then EmptyString else fragment |}
    end
  else inl {| name := "TypeError"; message := "Invalid URL" |}.

(** The whole seconds a duration stands for. *)
Definition remaining_seconds (r : TimeRemaining) : Z :=
  ((days r * 24 + hours r) * 60 + minutes r) * 60 + seconds r.

(** The firings of the timer among the events. *)
Fixpoint timer_firings (events : list Event) : nat :=
  match events with
  | [] => 0%nat
  | TimerFires _ :: more => S (timer_firings more)
  | _ :: more => timer_firings more
  end.

Definition is_SIGINT (ev : Event) : bool :=
  match ev with
  | SIGINT => true
  | _ => false
  end.

(** A request as [sendToSlack] makes them for the address [url]: a POST of
    JSON to its host and path, whose body is the message of some clock
    reading. *)
Definition posted_to (url : URL) (req : Request) : Prop :=
  opt_method (options req) = "POST"
  /\ opt_hostname (options req) = hostname url
  /\ opt_path (options req) = pathname url
  /\ header "Content-Type" (opt_headers (options req))
       = Some (HStr "application/json")
  /\ exists now,
       written req
         = JSON.stringify (formatCountdownMessage (getTimeRemaining TARGET_DATE now)).

Definition sumZ (l : list Z) : Z := fold_right Z.add 0 l.

(** The excess of all the text of a value: its strings and the names of
    its properties. *)
Fixpoint excess_value (v : JsValue) : Z :=
  match v with
  | JStr s => excess s
  | JNum _ => 0
  | JArr items => sumZ (map excess_value items)
  | JObj props =>
      sumZ (map (fun kv => excess (fst kv) + excess_value (snd kv)) props)
  end.

(** A string of ASCII bytes only. *)
Fixpoint ascii_only (s : string) : bool :=
  match s with
  | EmptyString => true
  | String c rest => (nat_of_ascii c <? 128)%nat && ascii_only rest
  end.

(** What the process logs on the events of a run in which [new URL]
    throws [thrown] at every tick: each firing of the timer ends in the
    [catch] of [updateCountdown]. *)
Fixpoint catch_log (thrown : JsError) (events : list Event) : list LogEntry :=
  match events with
  | [] => []
  | TimerFires _ :: more =>
      console_error "Failed to update countdown:" (Some thrown)
        :: catch_log thrown more
  | UncaughtException error :: more =>
      console_error "Uncaught exception:" (Some error) :: catch_log thrown more
  | _ :: more => catch_log thrown more
  end.

(** * Properties *)

(** ** Time Calculator *)

Lemma getTimeRemaining_reached (target now : Z) :
  target - now <= 0 ->
  getTimeRemaining target now = mkTimeRemaining 0 0 0 0 true.
Proof.
  intros Hle. unfold getTimeRemaining.
  destruct (Z.leb_spec (target - now) 0) as [_ | Hgt]; [reflexivity | lia].
Qed.

Lemma getTimeRemaining_running (target now : Z) :
  0 < target - now ->
  getTimeRemaining target now =
    let difference := target - now in
    mkTimeRemaining
      (difference / 86400000)
      (Z.rem difference 86400000 / 3600000)
      (Z.rem difference 3600000 / 60000)
      (Z.rem difference 60000 / 1000)
      false.
Proof.
  intros Hpos. unfold getTimeRemaining.
  destruct (Z.leb_spec (target - now) 0) as [Hle | _]; [lia | reflexivity].
Qed.

Lemma hasStarted_iff (target now : Z) :
  hasStarted (getTimeRemaining target now) = true <-> target - now <= 0.
Proof.
  split.
  - intros Hs. destruct (Z.le_gt_cases (target - now) 0) as [Hle | Hgt]; [exact Hle |].
    rewrite getTimeRemaining_running in Hs by lia. discriminate Hs.
  - intros Hle. rewrite getTimeRemaining_reached by exact Hle. reflexivity.
Qed.

(** C1: when [target - now <= 0] the calculator returns four zero fields
    and [hasStarted = true]; whenever [hasStarted] is true the four fields
    are zero; and one millisecond before the target it returns
    [hasStarted = false] with four zero fields. *)
Theorem C1_reached_zero_fields (target now : Z) :
  (target - now <= 0 ->
     getTimeRemaining target now = mkTimeRemaining 0 0 0 0 true)
  /\ (hasStarted (getTimeRemaining target now) = true ->
        days (getTimeRemaining target now) = 0
        /\ hours (getTimeRemaining target now) = 0
        /\ minutes (getTimeRemaining target now) = 0
        /\ seconds (getTimeRemaining target now) = 0)
  /\ (now = target - 1 ->
        getTimeRemaining target now = mkTimeRemaining 0 0 0 0 false).
Proof.
  split; [| split].
  - apply getTimeRemaining_reached.
  - intros Hs. apply hasStarted_iff in Hs.
    rewrite getTimeRemaining_reached by exact Hs. cbn. repeat split.
  - intros ->. rewrite getTimeRemaining_running by lia.
    replace (target - (target - 1)) with 1 by lia. reflexivity.
Qed.

Lemma C1_reached_zero_fields_witness :
  getTimeRemaining TARGET_DATE (TARGET_DATE + 1000) = mkTimeRemaining 0 0 0 0 true
  /\ seconds (getTimeRemaining TARGET_DATE TARGET_DATE) = 0
  /\ getTimeRemaining 5 4 = mkTimeRemaining 0 0 0 0 false.
Proof.
  split; [| split].
  - apply (proj1 (C1_reached_zero_fields TARGET_DATE (TARGET_DATE + 1000))).
    vm_compute. discriminate.
  - apply (proj1 (proj2 (C1_reached_zero_fields TARGET_DATE TARGET_DATE))).
    reflexivity.
  - apply (proj2 (proj2 (C1_reached_zero_fields 5 4))). reflexivity.
Defined.

(** C2: when [now < target], with [d = target - now], the calculator
    returns [hasStarted = false], [days = floor(d/86400000)],
    [hours = floor((d mod 86400000)/3600000)],
    [minutes = floor((d mod 3600000)/60000)],
    [seconds = floor((d mod 60000)/1000)]; hours are within 0..23, minutes
    and seconds within 0..59, days are not negative, and the fields add up
    to [d] truncated to whole seconds. *)
Theorem C2_decomposition (target now : Z) :
  now < target ->
  let d := target - now in
  let r := getTimeRemaining target now in
  hasStarted r = false
  /\ days r = d / 86400000
  /\ hours r = (d mod 86400000) / 3600000
  /\ minutes r = (d mod 3600000) / 60000
  /\ seconds r = (d mod 60000) / 1000
  /\ 0 <= hours r <= 23
  /\ 0 <= minutes r <= 59
  /\ 0 <= seconds r <= 59
  /\ 0 <= days r
  /\ days r * 86400000 + hours r * 3600000 + minutes r * 60000
       + seconds r * 1000 = (d / 1000) * 1000.
Proof.
  intros Hlt d r. subst r.
  assert (Hd : 0 < d) by (subst d; lia).
  rewrite getTimeRemaining_running by exact Hd. fold d. cbn.
  rewrite !Z.rem_mod_nonneg by lia.
  repeat split; try reflexivity; Z.div_mod_to_equations; lia.
Qed.

Lemma C2_decomposition_witness :
  getTimeRemaining 200000000 7000 = mkTimeRemaining 2 7 33 13 false.
Proof.
  pose proof (C2_decomposition 200000000 7000 ltac:(lia)) as H.
  cbv zeta in H.
  destruct (getTimeRemaining 200000000 7000) as [dd hh mm ss st].
  cbn in H. destruct H as (-> & -> & -> & -> & -> & _). reflexivity.
Defined.

(** ** Message Formatter *)

(** Padding the decimal text of a number between 0 and 99 to two
    characters gives its two decimal digits. *)
Lemma padStart_two_digits (n : Z) :
  0 <= n <= 99 ->
  JsString.padStart (JsString.ofNumber n) 2 "0" = two_digits n.
Proof.
  intros Hn.
  assert (Hall :
    forallb (fun k =>
               String.eqb
                 (JsString.padStart (JsString.ofNumber (Z.of_nat k)) 2 "0")
                 (two_digits (Z.of_nat k)))
            (seq 0 100) = true) by (vm_compute; reflexivity).
  rewrite forallb_forall in Hall.
  specialize (Hall (Z.to_nat n)).
  rewrite Z2Nat.id in Hall by lia.
  apply String.eqb_eq, Hall, in_seq. lia.
Qed.

(** Numbers of three digits and more are not cut: the padding only adds. *)
Example padStart_keeps_long : JsString.padStart (JsString.ofNumber 123) 2 "0" = "123".
Proof. reflexivity. Qed.

(** C3: when [hasStarted] is true the formatter returns one block only,
    the celebratory section; otherwise it returns the header, the
    introductory line, a row of two fields (the days as decimal text, the
    time of day as [HH:MM:SS] with two digits each) and the footer that
    names the target date in three time zones; 2 days 3 h 4 min 5 s is
    rendered with the time [03:04:05]. *)
Theorem C3_formatter_layout (d : TimeRemaining) :
  (hasStarted d = true ->
     formatCountdownMessage d =
       JObj [("blocks", JArr [
         JObj [("type", JStr "section");
               ("text", JObj [("type", JStr "mrkdwn");
                              ("text", JStr "🎉 *The Dreamers in Tech Hackathon has begun!* 🎉")])]
       ])])
  /\ (hasStarted d = false ->
      0 <= hours d <= 23 -> 0 <= minutes d <= 59 -> 0 <= seconds d <= 59 ->
      formatCountdownMessage d =
        JObj [("blocks", JArr [
          JObj [("type", JStr "header");
                ("text", JObj [("type", JStr "plain_text");
                               ("text", JStr "🚀 Dreamers in Tech Hackathon Countdown")])];
          JObj [("type", JStr "section");
                ("text", JObj [("type", JStr "mrkdwn");
                               ("text", JStr "*Kick-off Ceremony begins in:*")])];
          JObj [("type", JStr "section");
                ("fields", JArr [
                   JObj [("type", JStr "mrkdwn");
                         ("text", JStr ("*Days*" ++ String LF (JsString.ofNumber (days d))))];
                   JObj [("type", JStr "mrkdwn");
                         ("text", JStr ("*Time (HH:MM:SS)*" ++ String LF
                                          (HH_MM_SS (hours d) (minutes d) (seconds d))))]
                 ])];
          JObj [("type", JStr "context");
                ("elements", JArr [
                   JObj [("type", JStr "mrkdwn");
                         ("text", JStr "📅 Friday, July 18 • 5pm PST / 7pm CST / 8pm EST")]
                 ])]
        ])])
  /\ (d = mkTimeRemaining 2 3 4 5 false ->
      JsString.ofNumber (days d) = "2"
      /\ HH_MM_SS (hours d) (minutes d) (seconds d) = "03:04:05").
Proof.
  split; [| split].
  - intros Hs. unfold formatCountdownMessage. rewrite Hs. reflexivity.
  - intros Hs Hh Hm Hsec. unfold formatCountdownMessage, mrkdwn, HH_MM_SS.
    rewrite Hs, !padStart_two_digits by lia. reflexivity.
  - intros ->. split; reflexivity.
Qed.

Lemma C3_formatter_layout_witness :
  formatCountdownMessage (mkTimeRemaining 0 0 0 0 true) =
    JObj [("blocks", JArr [
      JObj [("type", JStr "section");
            ("text", JObj [("type", JStr "mrkdwn");
                           ("text", JStr "🎉 *The Dreamers in Tech Hackathon has begun!* 🎉")])]
    ])]
  /\ HH_MM_SS 3 4 5 = "03:04:05"
  /\ exists footer,
       formatCountdownMessage (mkTimeRemaining 2 3 4 5 false) =
         JObj [("blocks", JArr [
           JObj [("type", JStr "header");
                 ("text", JObj [("type", JStr "plain_text");
                                ("text", JStr "🚀 Dreamers in Tech Hackathon Countdown")])];
           JObj [("type", JStr "section");
                 ("text", JObj [("type", JStr "mrkdwn");
                                ("text", JStr "*Kick-off Ceremony begins in:*")])];
           JObj [("type", JStr "section");
                 ("fields", JArr [
                    JObj [("type", JStr "mrkdwn");
                          ("text", JStr ("*Days*" ++ String LF "2"))];
                    JObj [("type", JStr "mrkdwn");
                          ("text", JStr ("*Time (HH:MM:SS)*" ++ String LF "03:04:05"))]
                  ])];
           footer
         ])].
Proof.
  split; [| split].
  - apply (proj1 (C3_formatter_layout (mkTimeRemaining 0 0 0 0 true))).
    reflexivity.
  - apply (proj2 (proj2 (C3_formatter_layout (mkTimeRemaining 2 3 4 5 false)))
             eq_refl).
  - eexists.
    apply (proj1 (proj2 (C3_formatter_layout (mkTimeRemaining 2 3 4 5 false))));
      cbn; (reflexivity || lia).
Defined.

(** ** Delivery Client: settling the promise *)

Lemma to_int_proper (n : Z) :
  Z.to_int n <> Decimal.Pos Decimal.Nil /\ Z.to_int n <> Decimal.Neg Decimal.Nil.
Proof.
  destruct n as [| p | p]; cbn; split; try discriminate;
    intros H; injection H as H; exact (DecimalPos.Unsigned.to_uint_nonnil p H).
Qed.

(** The decimal text of a number determines the number. *)
Lemma ofNumber_inj (a b : Z) : JsString.ofNumber a = JsString.ofNumber b -> a = b.
Proof.
  unfold JsString.ofNumber. intros H.
  apply (f_equal NilZero.int_of_string) in H.
  destruct (to_int_proper a) as [Ha1 Ha2], (to_int_proper b) as [Hb1 Hb2].
  rewrite !NilZero.isi in H by assumption.
  injection H as H. apply DecimalZ.to_int_inj, H.
Qed.

Lemma append_assoc (a b c : string) : (a ++ b) ++ c = a ++ (b ++ c).
Proof.
  induction a as [| ch a IH]; cbn; [reflexivity | rewrite IH; reflexivity].
Qed.

Lemma append_empty_r (a : string) : a ++ EmptyString = a.
Proof.
  induction a as [| ch a IH]; cbn; [reflexivity | rewrite IH; reflexivity].
Qed.

(** ASCII bytes are characters of their own: the decoder hands them on and
    stays at a character boundary. *)
Lemma decode_ascii (s : string) :
  ascii_only s = true ->
  Buffer.toString s = s /\ Buffer.pending_after Buffer.Idle s = Buffer.Idle.
Proof.
  unfold Buffer.toString.
  induction s as [| c s IH]; cbn [ascii_only]; intros Hs; [split; reflexivity |].
  apply andb_true_iff in Hs as [Hc Hs]. destruct (IH Hs) as [IHd IHp].
  cbn [Buffer.decode Buffer.pending_after Buffer.feed]. unfold Buffer.lead.
  rewrite Hc. cbn [snd append]. rewrite IHd, IHp. split; reflexivity.
Qed.

Lemma fold_left_chunks (chunks : list string) (data : string) :
  fold_left (fun data chunk => data ++ Buffer.toString chunk) chunks data
    = data ++ responseData chunks.
Proof.
  unfold responseData. revert data.
  induction chunks as [| chunk chunks IH]; intros data; cbn [fold_left].
  - rewrite append_empty_r. reflexivity.
  - rewrite IH, (IH (EmptyString ++ Buffer.toString chunk)). cbn [append].
    apply append_assoc.
Qed.

Lemma responseData_cons (chunk : string) (chunks : list string) :
  responseData (chunk :: chunks) = Buffer.toString chunk ++ responseData chunks.
Proof.
  unfold responseData at 1. cbn [fold_left append]. apply fold_left_chunks.
Qed.

(** The response data are the chunks, each decoded on its own, put end
    to end. *)
Lemma responseData_decoded (chunks : list string) :
  responseData chunks = String.concat EmptyString (map Buffer.toString chunks).
Proof.
  induction chunks as [| chunk chunks IH]; [reflexivity |].
  rewrite responseData_cons, IH. cbn [map String.concat].
  destruct (map Buffer.toString chunks) as [| next more].
  - apply append_empty_r.
  - reflexivity.
Qed.

Lemma map_toString_ascii (chunks : list string) :
  forallb ascii_only chunks = true -> map Buffer.toString chunks = chunks.
Proof.
  induction chunks as [| chunk chunks IH]; cbn [forallb map]; intros H;
    [reflexivity |].
  apply andb_true_iff in H as [Hc Hs].
  rewrite (proj1 (decode_ascii chunk Hc)), (IH Hs). reflexivity.
Qed.

(** A two-byte character cut by a chunk boundary is lost: each half is
    replaced. *)
Example responseData_split_character :
  responseData ["caf" ++ String (ascii_of_nat 195) EmptyString;
                String (ascii_of_nat 169) EmptyString]
    = "caf" ++ Buffer.REPLACEMENT ++ Buffer.REPLACEMENT
  /\ responseData ["caf" ++ String (ascii_of_nat 195)
                              (String (ascii_of_nat 169) EmptyString)]
       = "café".
Proof. split; reflexivity. Qed.

Lemma settle_ok (chunks : list string) :
  sendToSlack_settle (Response 200 chunks) =
    ([console_log "Successfully sent countdown update to Slack"],
     Resolved (responseData chunks)).
Proof. reflexivity. Qed.

Lemma settle_not_ok (statusCode : Z) (chunks : list string) :
  statusCode <> 200 ->
  sendToSlack_settle (Response statusCode chunks) =
    ([console_error
        ("Slack API error: " ++ JsString.ofNumber statusCode ++ " - "
           ++ responseData chunks) None],
     Rejected (Error ("Slack API returned status " ++ JsString.ofNumber statusCode))).
Proof.
  intros Hne. unfold sendToSlack_settle.
  destruct (Z.eqb_spec statusCode 200) as [He | _]; [contradiction | reflexivity].
Qed.

Lemma settle_failed (o : Outcome) :
  failed o -> exists logged error, sendToSlack_settle o = (logged, Rejected error).
Proof.
  destruct o as [statusCode chunks | error]; cbn [failed]; intros Hf.
  - rewrite settle_not_ok by exact Hf. eauto.
  - cbn. eauto.
Qed.

(** C4, as the claim states it, fails: the error of a rejected response
    does not carry the body.  Two 429 responses with different bodies are
    rejected with the same error, so no reading of the error gives the body
    back. *)
Lemma C4_rejection_without_body :
  snd (sendToSlack_settle (Response 429 ["rate_limited"]))
    = snd (sendToSlack_settle (Response 429 ["slow down"]))
  /\ ~ (exists body_of : JsError -> string,
          forall statusCode chunks, statusCode <> 200 ->
            exists error,
              snd (sendToSlack_settle (Response statusCode chunks)) = Rejected error
              /\ body_of error = responseData chunks).
Proof.
  split; [reflexivity |].
  intros [body_of H].
  destruct (H 429 ["rate_limited"] ltac:(lia)) as (e1 & He1 & Hb1).
  destruct (H 429 ["slow down"] ltac:(lia)) as (e2 & He2 & Hb2).
  cbn in He1, He2. injection He1 as <-. injection He2 as <-.
  rewrite Hb1 in Hb2. discriminate Hb2.
Qed.

(** C4, amended: a response with status 200 resolves with the response
    data; a response with any other status is rejected with an [Error]
    whose message is [Slack API returned status <code>], from which the
    status can be read back, while the response data go to the error log
    only; an error of the request is logged and rejects with that very
    error.  The response data are the chunks, each decoded as UTF-8 on its
    own, put end to end: the raw body whenever the chunks are ASCII. *)
Theorem C4_settlement (o : Outcome) :
  (forall chunks, o = Response 200 chunks ->
     snd (sendToSlack_settle o) = Resolved (responseData chunks))
  /\ (forall statusCode chunks, o = Response statusCode chunks ->
      statusCode <> 200 ->
      sendToSlack_settle o =
        ([console_error
            ("Slack API error: " ++ JsString.ofNumber statusCode ++ " - "
               ++ responseData chunks) None],
         Rejected (Error ("Slack API returned status "
                            ++ JsString.ofNumber statusCode)))
      /\ forall statusCode' chunks', statusCode' <> 200 ->
           snd (sendToSlack_settle (Response statusCode' chunks'))
             = snd (sendToSlack_settle o) ->
           statusCode' = statusCode)
  /\ (forall error, o = RequestError error ->
      sendToSlack_settle o =
        ([console_error "Error sending to Slack:" (Some error)], Rejected error))
  /\ (forall statusCode chunks, o = Response statusCode chunks ->
      responseData chunks
        = String.concat EmptyString (map Buffer.toString chunks)
      /\ (forallb ascii_only chunks = true ->
          responseData chunks = String.concat EmptyString chunks)).
Proof.
  split; [| split; [| split]].
  - intros chunks ->. reflexivity.
  - intros statusCode chunks -> Hne. split; [apply settle_not_ok, Hne |].
    intros statusCode' chunks' Hne' Heq.
    rewrite !settle_not_ok in Heq by assumption. cbn [snd] in Heq.
    injection Heq as Heq. apply ofNumber_inj, Heq.
  - intros error ->. reflexivity.
  - intros statusCode chunks _. split; [apply responseData_decoded |].
    intros Hascii. rewrite responseData_decoded, map_toString_ascii by exact Hascii.
    reflexivity.
Qed.

Lemma C4_settlement_witness :
  sendToSlack_settle (Response 429 ["rate_"; "limited"]) =
    ([console_error "Slack API error: 429 - rate_limited" None],
     Rejected (Error "Slack API returned status 429"))
  /\ snd (sendToSlack_settle (Response 200 ["o"; "k"])) = Resolved "ok"
  /\ responseData ["o"; "k"] = "ok".
Proof.
  split; [| split].
  - apply (proj1 (proj2 (C4_settlement (Response 429 ["rate_"; "limited"])))
             429 ["rate_"; "limited"] eq_refl).
    vm_compute. discriminate.
  - apply (proj1 (C4_settlement (Response 200 ["o"; "k"])) ["o"; "k"] eq_refl).
  - apply (proj2 (proj2 (proj2 (proj2 (C4_settlement (Response 200 ["o"; "k"]))))
                    200 ["o"; "k"] eq_refl) eq_refl).
Defined.

(** ** Delivery Client: the request *)

Lemma JsString_length_app (a b : string) :
  JsString.length (a ++ b) = (JsString.length a + JsString.length b)%nat.
Proof.
  induction a as [| c a IH]; cbn; [reflexivity | rewrite IH; lia].
Qed.

Lemma byteLength_app (a b : string) :
  JsString.byteLength (a ++ b)
    = (JsString.byteLength a + JsString.byteLength b)%nat.
Proof.
  unfold JsString.byteLength.
  induction a as [| c a IH]; cbn; [reflexivity | rewrite IH; reflexivity].
Qed.

Lemma excess_app (a b : string) : excess (a ++ b) = excess a + excess b.
Proof.
  unfold excess. rewrite byteLength_app, JsString_length_app. lia.
Qed.

Lemma excess_cons (c : ascii) (s : string) :
  excess (String c s) = excess (String c EmptyString) + excess s.
Proof. apply (excess_app (String c EmptyString) s). Qed.

Lemma quote_byte_rest (c : ascii) (rest : string) :
  JSON.quote_byte c rest = JSON.quote_byte c EmptyString ++ rest.
Proof.
  destruct c as [[] [] [] [] [] [] [] []]; reflexivity.
Qed.

(** An escape is made of ASCII characters and stands for an ASCII
    character: quoting adds no excess. *)
Lemma excess_quote_byte (c : ascii) :
  excess (JSON.quote_byte c EmptyString) = excess (String c EmptyString).
Proof.
  destruct c as [[] [] [] [] [] [] [] []]; vm_compute; reflexivity.
Qed.

Lemma excess_quote_bytes (s rest : string) :
  excess (JSON.quote_bytes s rest) = excess s + excess rest.
Proof.
  induction s as [| c s IH]; cbn [JSON.quote_bytes].
  - reflexivity.
  - rewrite quote_byte_rest, excess_app, excess_quote_byte, IH.
    rewrite (excess_cons c s). lia.
Qed.

Lemma excess_quote (s : string) : excess (JSON.quote s) = excess s.
Proof.
  unfold JSON.quote. rewrite excess_cons, excess_quote_bytes.
  change (excess (String JSON.DQUOTE EmptyString)) with 0. lia.
Qed.

Lemma excess_string_of_uint (d : Decimal.uint) :
  excess (NilEmpty.string_of_uint d) = 0.
Proof.
  induction d as [| d IH | d IH | d IH | d IH | d IH | d IH | d IH | d IH
                  | d IH | d IH]; cbn [NilEmpty.string_of_uint];
    [reflexivity | rewrite excess_cons, IH; reflexivity ..].
Qed.

(** The decimal text of a number is ASCII. *)
Lemma excess_ofNumber (n : Z) : excess (JsString.ofNumber n) = 0.
Proof.
  unfold JsString.ofNumber, NilZero.string_of_int, NilZero.string_of_uint.
  destruct (Z.to_int n) as [d | d].
  - destruct d; try reflexivity; apply excess_string_of_uint.
  - rewrite excess_cons.
    destruct d; try reflexivity;
      rewrite excess_string_of_uint; reflexivity.
Qed.

Lemma excess_fill_zero (k : nat) : excess (JsString.fill k "0" EmptyString) = 0.
Proof.
  induction k as [| k IH]; cbn [JsString.fill]; [reflexivity |].
  rewrite excess_cons, IH. reflexivity.
Qed.

Lemma excess_padStart_zero (s : string) (targetLength : Z) :
  excess (JsString.padStart s targetLength "0") = excess s.
Proof.
  unfold JsString.padStart.
  destruct (targetLength <=? Z.of_nat (JsString.length s)); [reflexivity |].
  rewrite excess_app, excess_fill_zero. lia.
Qed.

Lemma excess_started (d : TimeRemaining) :
  hasStarted d = true ->
  excess (JSON.stringify (formatCountdownMessage d)) = 4.
Proof.
  intros Hs. unfold formatCountdownMessage. rewrite Hs. vm_compute. reflexivity.
Qed.

Lemma excess_countdown (d : TimeRemaining) :
  hasStarted d = false ->
  excess (JSON.stringify (formatCountdownMessage d)) = 6.
Proof.
  intros Hs. unfold formatCountdownMessage. rewrite Hs.
  set (daysText := JsString.ofNumber (days d)).
  set (hh := JsString.padStart (JsString.ofNumber (hours d)) 2 "0").
  set (mm := JsString.padStart (JsString.ofNumber (minutes d)) 2 "0").
  set (ss := JsString.padStart (JsString.ofNumber (seconds d)) 2 "0").
  assert (Hd : excess daysText = 0) by apply excess_ofNumber.
  assert (Hh : excess hh = 0)
    by (subst hh; rewrite excess_padStart_zero; apply excess_ofNumber).
  assert (Hm : excess mm = 0)
    by (subst mm; rewrite excess_padStart_zero; apply excess_ofNumber).
  assert (Hsec : excess ss = 0)
    by (subst ss; rewrite excess_padStart_zero; apply excess_ofNumber).
  clearbody daysText hh mm ss.
  cbn [JSON.stringify map JSON.commas fst snd mrkdwn].
  repeat (rewrite ?excess_app, ?excess_quote).
  rewrite (excess_cons LF daysText), (excess_cons LF (hh ++ _)).
  rewrite ?excess_app, Hd, Hh, Hm, Hsec.
  vm_compute. reflexivity.
Qed.

Lemma sendToSlack_request_parsed (URL_parse : string -> JsError + URL)
  (SLACK_WEBHOOK_URL : string) (url : URL) (message : JsValue) :
  URL_parse SLACK_WEBHOOK_URL = inr url ->
  sendToSlack_request URL_parse SLACK_WEBHOOK_URL message =
    inr {| options :=
             {| opt_hostname := hostname url;
                opt_path := pathname url;
                opt_method := "POST";
                opt_headers :=
                  [("Content-Type", HStr "application/json");
                   ("Content-Length",
                    HNum (Z.of_nat (JsString.length (JSON.stringify message))))] |};
           written := JSON.stringify message |}.
Proof.
  intros Hurl. unfold sendToSlack_request. rewrite Hurl. reflexivity.
Qed.

(** C5, evaluated on the code: every message of the formatter is sent in
    one POST request with [Content-Type: application/json], but its
    [Content-Length] is [data.length], the count of UTF-16 code units of
    the body, and the body written is longer in bytes: by 4 for the
    "has begun" message, by 6 for every countdown message. *)
Theorem C5_content_length_is_short (URL_parse : string -> JsError + URL)
  (SLACK_WEBHOOK_URL : string) (url : URL) (d : TimeRemaining) :
  URL_parse SLACK_WEBHOOK_URL = inr url ->
  exists req n,
    sendToSlack_request URL_parse SLACK_WEBHOOK_URL (formatCountdownMessage d)
      = inr req
    /\ opt_method (options req) = "POST"
    /\ header "Content-Type" (opt_headers (options req))
         = Some (HStr "application/json")
    /\ header "Content-Length" (opt_headers (options req)) = Some (HNum n)
    /\ n = Z.of_nat (JsString.length (written req))
    /\ Z.of_nat (JsString.byteLength (written req))
         = n + (if hasStarted d then 4 else 6).
Proof.
  intros Hurl. rewrite (sendToSlack_request_parsed _ _ url) by exact Hurl.
  eexists. eexists. split; [reflexivity |].
  cbn [options written opt_method opt_headers].
  repeat (split; [reflexivity |]).
  pose proof (excess_started d) as Hst. pose proof (excess_countdown d) as Hcd.
  unfold excess in Hst, Hcd.
  destruct (hasStarted d); [specialize (Hst eq_refl) | specialize (Hcd eq_refl)]; lia.
Qed.

Lemma C5_content_length_is_short_witness :
  exists req,
    sendToSlack_request https_URL "https://hooks.slack.com/services/T0/B0/XYZ"
      (formatCountdownMessage (mkTimeRemaining 0 0 0 0 true)) = inr req
    /\ header "Content-Length" (opt_headers (options req)) = Some (HNum 115)
    /\ JsString.byteLength (written req) = 119%nat.
Proof.
  destruct (C5_content_length_is_short https_URL
              "https://hooks.slack.com/services/T0/B0/XYZ"
              (mkURL "https:" "hooks.slack.com" EmptyString "/services/T0/B0/XYZ"
                     EmptyString EmptyString)
              (mkTimeRemaining 0 0 0 0 true) eq_refl)
    as (req & n & Hreq & _ & _ & Hlen & _ & _).
  exists req. split; [exact Hreq |].
  vm_compute in Hreq. injection Hreq as <-. split; reflexivity.
Defined.

(** C10: the path of the request is the [pathname] of the configured
    address and its host the [hostname]; nothing else of the address goes
    into the request, so an address with a query string or a fragment is
    posted to as the same address without them. *)
Theorem C10_query_string_dropped (URL_parse : string -> JsError + URL)
  (SLACK_WEBHOOK_URL : string) (url : URL) (message : JsValue) :
  URL_parse SLACK_WEBHOOK_URL = inr url ->
  exists req,
    sendToSlack_request URL_parse SLACK_WEBHOOK_URL message = inr req
    /\ opt_path (options req) = pathname url
    /\ opt_hostname (options req) = hostname url
    /\ forall other url',
         URL_parse other = inr url' ->
         hostname url' = hostname url ->
         pathname url' = pathname url ->
         sendToSlack_request URL_parse other message = inr req.
Proof.
  intros Hurl. rewrite (sendToSlack_request_parsed _ _ url) by exact Hurl.
  eexists. split; [reflexivity |]. cbn [options opt_path opt_hostname].
  repeat split.
  intros other url' Hother Hhost Hpath.
  rewrite (sendToSlack_request_parsed _ _ url') by exact Hother.
  rewrite Hhost, Hpath. reflexivity.
Qed.

Lemma C10_query_string_dropped_witness :
  exists req,
    sendToSlack_request https_URL
      "https://hooks.slack.com/services/T0/B0/XYZ?token=abc#top" (JStr "hi")
      = inr req
    /\ opt_path (options req) = "/services/T0/B0/XYZ"
    /\ sendToSlack_request https_URL
         "https://hooks.slack.com/services/T0/B0/XYZ" (JStr "hi") = inr req.
Proof.
  destruct (C10_query_string_dropped https_URL
              "https://hooks.slack.com/services/T0/B0/XYZ?token=abc#top"
              (mkURL "https:" "hooks.slack.com" EmptyString "/services/T0/B0/XYZ"
                     "?token=abc" "#top")
              (JStr "hi") eq_refl)
    as (req & Hreq & Hpath & _ & Hsame).
  exists req. split; [exact Hreq |]. split; [exact Hpath |].
  apply (Hsame _ (mkURL "https:" "hooks.slack.com" EmptyString
                        "/services/T0/B0/XYZ" EmptyString EmptyString));
    reflexivity.
Defined.

(** ** Scheduler/Driver *)

Section DriverFacts.

Variable URL_parse : string -> JsError + URL.
Variable SLACK_WEBHOOK_URL : string.

#[local] Abbreviation step_ := (step URL_parse SLACK_WEBHOOK_URL).
#[local] Abbreviation run_ := (run URL_parse SLACK_WEBHOOK_URL).
#[local] Abbreviation begin_ := (updateCountdown_begin URL_parse SLACK_WEBHOOK_URL).

Lemma step_after_exit (st : Process) (ev : Event) (code : Z) :
  exited st = Some code -> step_ st ev = st.
Proof. intros He. unfold step. rewrite He. reflexivity. Qed.

Lemma run_after_exit (events : list Event) (st : Process) (code : Z) :
  exited st = Some code -> run_ st events = st.
Proof.
  intros He. induction events as [| ev events IH]; [reflexivity |].
  unfold run in *. cbn [fold_left].
  rewrite (step_after_exit st ev code He). exact IH.
Qed.

(** A call of [updateCountdown] is one more tick; it leaves the timer
    and the exit status alone. *)
Lemma begin_counts (now : Z) (st : Process) :
  ticks (begin_ now st) = S (ticks st)
  /\ countdownInterval (begin_ now st) = countdownInterval st
  /\ exited (begin_ now st) = exited st.
Proof.
  unfold updateCountdown_begin.
  destruct (sendToSlack_request _ _ _); cbn; repeat split.
Qed.

(** An armed timer that fires runs one tick. *)
Lemma step_timer_armed (st : Process) (now : Z) :
  exited st = None -> countdownInterval st = true ->
  ticks (step_ st (TimerFires now)) = S (ticks st)
  /\ countdownInterval (step_ st (TimerFires now)) = true
  /\ exited (step_ st (TimerFires now)) = None.
Proof.
  intros He Ht. unfold step. rewrite He, Ht.
  destruct (begin_counts now st) as (H1 & H2 & H3).
  rewrite H1, H2, H3, He, Ht. repeat split.
Qed.

(** The end of a failed delivery: the rejection is caught and logged,
    the suspended run is over, and nothing else changes. *)
Lemma step_delivery_failed (st : Process) (k : nat)
  (timeRemaining : TimeRemaining) (o : Outcome) :
  exited st = None ->
  nth_error (awaiting st) k = Some timeRemaining ->
  failed o ->
  exists logged error,
    sendToSlack_settle o = (logged, Rejected error)
    /\ step_ st (DeliveryEnds k o) =
         {| countdownInterval := countdownInterval st;
            awaiting := drop_nth k (awaiting st);
            requests := requests st;
            ticks := ticks st;
            console :=
              (console st ++ logged
                 ++ [console_error "Failed to update countdown:" (Some error)])%list;
            exited := None |}.
Proof.
  intros He Hk Hf.
  destruct (settle_failed o Hf) as (logged & error & Hsettle).
  exists logged, error. split; [exact Hsettle |].
  unfold step, updateCountdown_resume.
  rewrite He, Hk, Hsettle. reflexivity.
Qed.

(** The end of a successful delivery of a tick that had reached the
    target clears the timer. *)
Lemma step_delivery_ok_reached (st : Process) (k : nat)
  (timeRemaining : TimeRemaining) (chunks : list string) :
  exited st = None ->
  nth_error (awaiting st) k = Some timeRemaining ->
  hasStarted timeRemaining = true ->
  countdownInterval (step_ st (DeliveryEnds k (Response 200 chunks))) = false
  /\ ticks (step_ st (DeliveryEnds k (Response 200 chunks))) = ticks st.
Proof.
  intros He Hk Hs. unfold step, updateCountdown_resume.
  rewrite He, Hk, settle_ok, Hs. split; reflexivity.
Qed.

(** With the timer cleared no callback runs a tick or arms the timer
    again. *)
Lemma step_stopped (st : Process) (ev : Event) :
  countdownInterval st = false ->
  countdownInterval (step_ st ev) = false
  /\ ticks (step_ st ev) = ticks st
  /\ requests (step_ st ev) = requests st.
Proof.
  intros Ht. unfold step.
  destruct (exited st) as [code |]; [auto |].
  destruct ev as [now | k o | | error]; cbn.
  - rewrite Ht. auto.
  - destruct (nth_error (awaiting st) k) as [timeRemaining |]; [| auto].
    unfold updateCountdown_resume.
    destruct (sendToSlack_settle o) as [logged [value | error]];
      [destruct (hasStarted timeRemaining) |]; cbn; auto.
  - auto.
  - auto.
Qed.

Lemma run_stopped (events : list Event) (st : Process) :
  countdownInterval st = false ->
  countdownInterval (run_ st events) = false
  /\ ticks (run_ st events) = ticks st
  /\ requests (run_ st events) = requests st.
Proof.
  revert st. induction events as [| ev events IH]; intros st Ht; [auto |].
  unfold run in *. cbn [fold_left].
  destruct (step_stopped st ev Ht) as (H1 & H2 & H3).
  destruct (IH (step_ st ev) H1) as (G1 & G2 & G3).
  rewrite G1, G2, G3, H2, H3. auto.
Qed.

End DriverFacts.

(** C6, evaluated on the code: when the delivery of a tick that reached
    the target fails, [clearInterval] is skipped with the rest of the [try]
    block: the timer stays armed and its next firing runs a further tick.
    (When that delivery succeeds the timer is cleared, see
    [step_delivery_ok_reached], and stays so, see [run_stopped].) *)
Theorem C6_failed_delivery_of_reached_tick (URL_parse : string -> JsError + URL)
  (SLACK_WEBHOOK_URL : string) (st : Process) (k : nat)
  (timeRemaining : TimeRemaining) (o : Outcome) :
  exited st = None ->
  countdownInterval st = true ->
  nth_error (awaiting st) k = Some timeRemaining ->
  hasStarted timeRemaining = true ->
  failed o ->
  let st' := step URL_parse SLACK_WEBHOOK_URL st (DeliveryEnds k o) in
  countdownInterval st' = true
  /\ exited st' = None
  /\ forall now,
       ticks (step URL_parse SLACK_WEBHOOK_URL st' (TimerFires now))
         = S (ticks st).
Proof.
  intros He Ht Hk _ Hf st'.
  destruct (step_delivery_failed URL_parse SLACK_WEBHOOK_URL st k timeRemaining o
              He Hk Hf) as (logged & error & _ & Hstep).
  subst st'. rewrite Hstep. cbn [countdownInterval exited].
  split; [exact Ht |]. split; [reflexivity |].
  intros now.
  match goal with
  | |- ticks (step _ _ ?s _) = _ =>
      destruct (step_timer_armed URL_parse SLACK_WEBHOOK_URL s now eq_refl Ht)
        as (Hticks & _ & _)
  end.
  exact Hticks.
Qed.

Lemma C6_failed_delivery_of_reached_tick_witness :
  let address := "https://hooks.slack.com/services/T0/B0/XYZ" in
  let zone := "Fri Jul 18 2025 17:00:00 GMT-0700 (Pacific Daylight Time)" in
  let st := start https_URL zone (Some address) TARGET_DATE in
  awaiting st = [mkTimeRemaining 0 0 0 0 true]
  /\ countdownInterval (step https_URL address st (DeliveryEnds 0 (Response 500 ["no"])))
       = true
  /\ ticks (program https_URL zone (Some address) TARGET_DATE
              [DeliveryEnds 0 (Response 500 ["no"]);
               TimerFires (TARGET_DATE + UPDATE_INTERVAL)]) = 2%nat.
Proof.
  intros address zone st. split; [reflexivity |].
  destruct (C6_failed_delivery_of_reached_tick https_URL address st 0
              (mkTimeRemaining 0 0 0 0 true) (Response 500 ["no"]))
    as (Harmed & _ & Hnext).
  - reflexivity.
  - reflexivity.
  - reflexivity.
  - reflexivity.
  - cbn. lia.
  - split; [exact Harmed |].
    exact (Hnext (TARGET_DATE + UPDATE_INTERVAL)).
Defined.

(** C7: when the delivery of a tick that has not reached the target fails
    (a status other than 200, or an error of the request), the rejection is
    caught and logged, that run of [updateCountdown] is over, the timer and
    the exit status are as before, no tick and no request is added, and an
    armed timer runs the next tick when it fires. *)
Theorem C7_failed_delivery_keeps_schedule (URL_parse : string -> JsError + URL)
  (SLACK_WEBHOOK_URL : string) (st : Process) (k : nat)
  (timeRemaining : TimeRemaining) (o : Outcome) :
  exited st = None ->
  nth_error (awaiting st) k = Some timeRemaining ->
  hasStarted timeRemaining = false ->
  failed o ->
  let st' := step URL_parse SLACK_WEBHOOK_URL st (DeliveryEnds k o) in
  countdownInterval st' = countdownInterval st
  /\ exited st' = None
  /\ ticks st' = ticks st
  /\ requests st' = requests st
  /\ awaiting st' = drop_nth k (awaiting st)
  /\ (exists logged error,
        sendToSlack_settle o = (logged, Rejected error)
        /\ console st' =
             (console st ++ logged
                ++ [console_error "Failed to update countdown:" (Some error)])%list)
  /\ (countdownInterval st = true ->
      forall now,
        ticks (step URL_parse SLACK_WEBHOOK_URL st' (TimerFires now))
          = S (ticks st)).
Proof.
  intros He Hk _ Hf st'.
  destruct (step_delivery_failed URL_parse SLACK_WEBHOOK_URL st k timeRemaining o
              He Hk Hf) as (logged & error & Hsettle & Hstep).
  subst st'. rewrite Hstep.
  cbn [countdownInterval exited ticks requests awaiting console].
  repeat (split; [reflexivity |]).
  split; [exists logged, error; split; [exact Hsettle | reflexivity] |].
  intros Ht now.
  match goal with
  | |- ticks (step _ _ ?s _) = _ =>
      destruct (step_timer_armed URL_parse SLACK_WEBHOOK_URL s now eq_refl Ht)
        as (Hticks & _ & _)
  end.
  exact Hticks.
Qed.

Lemma C7_failed_delivery_keeps_schedule_witness :
  let address := "https://hooks.slack.com/services/T0/B0/XYZ" in
  let zone := "Fri Jul 18 2025 17:00:00 GMT-0700 (Pacific Daylight Time)" in
  let st := start https_URL zone (Some address) (TARGET_DATE - 3600000) in
  let st' :=
    step https_URL address st
      (DeliveryEnds 0 (RequestError (mkError "Error" "getaddrinfo ENOTFOUND"))) in
  countdownInterval st' = true /\ exited st' = None /\ ticks st' = 1%nat
  /\ ticks (step https_URL address st' (TimerFires (TARGET_DATE - 3540000))) = 2%nat.
Proof.
  intros address zone st st'.
  destruct (C7_failed_delivery_keeps_schedule https_URL address st 0
              (mkTimeRemaining 0 1 0 0 false)
              (RequestError (mkError "Error" "getaddrinfo ENOTFOUND")))
    as (Htimer & Hexit & Hticks & _ & _ & _ & Hnext).
  - reflexivity.
  - reflexivity.
  - reflexivity.
  - exact I.
  - split; [exact Htimer |]. split; [exact Hexit |]. split; [exact Hticks |].
    exact (Hnext eq_refl (TARGET_DATE - 3540000)).
Defined.

Lemma js_not_true (env : option string) :
  js_not env = true <-> env = None \/ env = Some EmptyString.
Proof.
  destruct env as [[| c v] |]; cbn; split; intros H; auto;
    try discriminate H; destruct H as [H | H]; discriminate H.
Qed.

(** C8, as the claim states it, fails: a variable that is present but
    empty is refused like an absent one, the process exits with status 1
    and no tick runs. *)
Lemma C8_empty_endpoint_exits :
  let zone := "Fri Jul 18 2025 17:00:00 GMT-0700 (Pacific Daylight Time)" in
  let st := start https_URL zone (Some EmptyString) TARGET_DATE in
  (exited st = Some 1 /\ ticks st = 0%nat)
  /\ ~ (forall env now,
          env <> None ->
          exited (start https_URL zone env now) = None
          /\ ticks (start https_URL zone env now) = 1%nat).
Proof.
  intros zone st. split; [split; reflexivity |].
  intros H.
  destruct (H (Some EmptyString) TARGET_DATE ltac:(discriminate)) as [He _].
  discriminate He.
Qed.

(** C8, amended: when the variable is absent or empty the process logs
    its two diagnostic lines and exits with status 1 before any tick: no
    tick and no request is made, then or later; when the variable is
    present and not empty, start-up proceeds, the first tick runs at once
    and the timer is armed. *)
Theorem C8_startup (URL_parse : string -> JsError + URL) (zone : string)
  (env : option string) (now : Z) :
  (env = None \/ env = Some EmptyString ->
     start URL_parse zone env now =
       {| countdownInterval := false;
          awaiting := [];
          requests := [];
          ticks := 0;
          console :=
            [console_error
               "ERROR: SLACK_WEBHOOK_URL environment variable is not set" None;
             console_error
               "Please set it to your Slack incoming webhook URL" None];
          exited := Some 1 |}
     /\ forall events,
          program URL_parse zone env now events = start URL_parse zone env now)
  /\ (forall address, env = Some address -> address <> EmptyString ->
        exited (start URL_parse zone env now) = None
        /\ ticks (start URL_parse zone env now) = 1%nat
        /\ countdownInterval (start URL_parse zone env now) = true).
Proof.
  split.
  - intros Habsent. apply js_not_true in Habsent.
    assert (Hstart : start URL_parse zone env now =
              mkProcess false [] [] 0
                [console_error
                   "ERROR: SLACK_WEBHOOK_URL environment variable is not set" None;
                 console_error
                   "Please set it to your Slack incoming webhook URL" None]
                (Some 1))
      by (unfold start; rewrite Habsent; reflexivity).
    split; [exact Hstart |].
    intros events. unfold program.
    apply (run_after_exit _ _ events _ 1). rewrite Hstart. reflexivity.
  - intros address -> Hne. unfold start.
    destruct address as [| c address]; [contradiction |]. cbn [js_not].
    cbv zeta.
    match goal with
    | |- context [updateCountdown_begin ?p ?u ?n ?s] =>
        destruct (begin_counts p u n s) as (Hticks & _ & Hexit)
    end.
    cbn [exited ticks countdownInterval] in *.
    rewrite Hticks, Hexit. repeat split.
Qed.

Lemma C8_startup_witness :
  let zone := "Fri Jul 18 2025 17:00:00 GMT-0700 (Pacific Daylight Time)" in
  exited (start https_URL zone None 0) = Some 1
  /\ ticks (program https_URL zone None 0 [TimerFires 60000]) = 0%nat
  /\ ticks (start https_URL zone (Some "https://hooks.slack.com/services/T0/B0/XYZ") 0)
       = 1%nat.
Proof.
  intros zone.
  destruct (C8_startup https_URL zone None 0) as [Habsent _].
  destruct (Habsent (or_introl eq_refl)) as [Hstart Hrun].
  destruct (C8_startup https_URL zone
              (Some "https://hooks.slack.com/services/T0/B0/XYZ") 0)
    as [_ Hpresent].
  destruct (Hpresent _ eq_refl ltac:(discriminate)) as (_ & Hticks & _).
  split; [rewrite Hstart; reflexivity |].
  split; [rewrite Hrun, Hstart; reflexivity | exact Hticks].
Defined.

(** C9: the payload is a function of the five fields of the duration
    alone: two durations with the same fields are formatted to the same
    payload, and to the same JSON text. *)
Theorem C9_formatter_deterministic (d d' : TimeRemaining) :
  days d = days d' -> hours d = hours d' -> minutes d = minutes d' ->
  seconds d = seconds d' -> hasStarted d = hasStarted d' ->
  formatCountdownMessage d = formatCountdownMessage d'
  /\ JSON.stringify (formatCountdownMessage d)
       = JSON.stringify (formatCountdownMessage d').
Proof.
  intros Hd Hh Hm Hs Hst.
  assert (Heq : formatCountdownMessage d = formatCountdownMessage d').
  { unfold formatCountdownMessage. rewrite Hd, Hh, Hm, Hs, Hst. reflexivity. }
  split; [exact Heq | rewrite Heq; reflexivity].
Qed.

Lemma C9_formatter_deterministic_witness :
  formatCountdownMessage (getTimeRemaining 200000000 7000)
    = formatCountdownMessage (getTimeRemaining 200000999 7999).
Proof.
  apply (C9_formatter_deterministic (getTimeRemaining 200000000 7000)
           (getTimeRemaining 200000999 7999)); reflexivity.
Defined.

(** * Further properties of the code *)

(** ** The countdown as the clock advances *)

Lemma remaining_seconds_running (target now : Z) :
  0 < target - now ->
  remaining_seconds (getTimeRemaining target now) = (target - now) / 1000.
Proof.
  intros Hpos. rewrite getTimeRemaining_running by exact Hpos.
  unfold remaining_seconds. cbn.
  rewrite !Z.rem_mod_nonneg by lia.
  Z.div_mod_to_equations. lia.
Qed.

Lemma remaining_seconds_reached (target now : Z) :
  target - now <= 0 ->
  remaining_seconds (getTimeRemaining target now) = 0.
Proof.
  intros Hle. rewrite getTimeRemaining_reached by exact Hle. reflexivity.
Qed.

(** X1: the time the calculator reports never goes up as the clock
    advances, across the target instant too. *)
Theorem countdown_never_increases (target now now' : Z) :
  now <= now' ->
  remaining_seconds (getTimeRemaining target now')
    <= remaining_seconds (getTimeRemaining target now).
Proof.
  intros Hle.
  destruct (Z.le_gt_cases (target - now') 0) as [Hr' | Hr'].
  - rewrite (remaining_seconds_reached target now') by exact Hr'.
    destruct (Z.le_gt_cases (target - now) 0) as [Hr | Hr].
    + rewrite remaining_seconds_reached by exact Hr. lia.
    + rewrite remaining_seconds_running by lia.
      apply Z.div_pos; lia.
  - rewrite !remaining_seconds_running by lia.
    apply Z.div_le_mono; lia.
Qed.

Lemma countdown_never_increases_witness :
  remaining_seconds (getTimeRemaining TARGET_DATE (TARGET_DATE - 500))
    <= remaining_seconds (getTimeRemaining TARGET_DATE (TARGET_DATE - 61500)).
Proof.
  apply (countdown_never_increases TARGET_DATE (TARGET_DATE - 61500)
           (TARGET_DATE - 500)).
  vm_compute. discriminate.
Defined.

(** X2: two ticks one update interval apart, both before the target, show
    the same seconds and a time exactly 60 seconds shorter. *)
Theorem one_interval_later (target now : Z) :
  UPDATE_INTERVAL < target - now ->
  remaining_seconds (getTimeRemaining target (now + UPDATE_INTERVAL))
    = remaining_seconds (getTimeRemaining target now) - 60
  /\ seconds (getTimeRemaining target (now + UPDATE_INTERVAL))
       = seconds (getTimeRemaining target now)
  /\ hasStarted (getTimeRemaining target (now + UPDATE_INTERVAL)) = false.
Proof.
  unfold UPDATE_INTERVAL. intros Hfar.
  rewrite !remaining_seconds_running by lia.
  rewrite !getTimeRemaining_running by lia. cbn.
  rewrite !Z.rem_mod_nonneg by lia.
  repeat split; Z.div_mod_to_equations; lia.
Qed.

Lemma one_interval_later_witness :
  getTimeRemaining 200000000 7000 = mkTimeRemaining 2 7 33 13 false
  /\ getTimeRemaining 200000000 67000 = mkTimeRemaining 2 7 32 13 false
  /\ remaining_seconds (getTimeRemaining 200000000 (7000 + UPDATE_INTERVAL))
       = remaining_seconds (getTimeRemaining 200000000 7000) - 60.
Proof.
  split; [reflexivity |]. split; [reflexivity |].
  apply (one_interval_later 200000000 7000). vm_compute. reflexivity.
Defined.

(** ** Calculator and formatter together *)

(** X3: whatever the clock reads, the calculator hands the formatter
    fields it renders well: at or after the target the message is the
    single "has begun" block; before it, the countdown layout shows the
    whole days left and the rest of the difference as two-digit hours,
    minutes and seconds. *)
Theorem pipeline_message (target now : Z) :
  (target <= now ->
     formatCountdownMessage (getTimeRemaining target now) =
       JObj [("blocks", JArr [
         JObj [("type", JStr "section");
               ("text", JObj [("type", JStr "mrkdwn");
                              ("text", JStr "🎉 *The Dreamers in Tech Hackathon has begun!* 🎉")])]
       ])])
  /\ (now < target ->
      let d := target - now in
      formatCountdownMessage (getTimeRemaining target now) =
        JObj [("blocks", JArr [
          JObj [("type", JStr "header");
                ("text", JObj [("type", JStr "plain_text");
                               ("text", JStr "🚀 Dreamers in Tech Hackathon Countdown")])];
          JObj [("type", JStr "section");
                ("text", JObj [("type", JStr "mrkdwn");
                               ("text", JStr "*Kick-off Ceremony begins in:*")])];
          JObj [("type", JStr "section");
                ("fields", JArr [
                   JObj [("type", JStr "mrkdwn");
                         ("text", JStr ("*Days*" ++ String LF
                                          (JsString.ofNumber (d / 86400000))))];
                   JObj [("type", JStr "mrkdwn");
                         ("text", JStr ("*Time (HH:MM:SS)*" ++ String LF
                                          (HH_MM_SS ((d mod 86400000) / 3600000)
                                                    ((d mod 3600000) / 60000)
                                                    ((d mod 60000) / 1000))))]
                 ])];
          JObj [("type", JStr "context");
                ("elements", JArr [
                   JObj [("type", JStr "mrkdwn");
                         ("text", JStr "📅 Friday, July 18 • 5pm PST / 7pm CST / 8pm EST")]
                 ])]
        ])]).
Proof.
  split.
  - intros Hle. rewrite getTimeRemaining_reached by lia. reflexivity.
  - intros Hlt d. assert (Hd : 0 < d) by (subst d; lia).
    rewrite getTimeRemaining_running by exact Hd. fold d. cbv zeta.
    rewrite !Z.rem_mod_nonneg by lia.
    unfold formatCountdownMessage, mrkdwn, HH_MM_SS.
    cbn [hasStarted days hours minutes seconds].
    rewrite !padStart_two_digits
      by (split; [apply Z.div_pos; [apply Z.mod_pos_bound |]; lia
                 | apply Z.lt_succ_r, Z.div_lt_upper_bound;
                   [| pose proof (Z.mod_pos_bound d 86400000);
                      pose proof (Z.mod_pos_bound d 3600000);
                      pose proof (Z.mod_pos_bound d 60000)]; lia]).
    reflexivity.
Qed.

Lemma pipeline_message_witness :
  exists header intro footer,
    formatCountdownMessage (getTimeRemaining 200000000 7000) =
      JObj [("blocks", JArr [
        header; intro;
        JObj [("type", JStr "section");
              ("fields", JArr [
                 JObj [("type", JStr "mrkdwn");
                       ("text", JStr ("*Days*" ++ String LF "2"))];
                 JObj [("type", JStr "mrkdwn");
                       ("text", JStr ("*Time (HH:MM:SS)*" ++ String LF "07:33:13"))]
               ])];
        footer])].
Proof.
  do 3 eexists.
  apply (proj2 (pipeline_message 200000000 7000)). reflexivity.
Defined.

(** ** The response body *)

Lemma responseData_app (first second : list string) :
  responseData (first ++ second)%list = responseData first ++ responseData second.
Proof.
  induction first as [| chunk first IH]; [reflexivity |].
  cbn [app]. rewrite !responseData_cons, IH. symmetry. apply append_assoc.
Qed.

(** Decoding runs on from where the first part leaves the decoder: when
    that is a character boundary, the two parts decode as they do alone. *)
Lemma decode_app (x y : string) (st : Buffer.Pending) :
  Buffer.pending_after st x = Buffer.Idle ->
  Buffer.decode st (x ++ y) = Buffer.decode st x ++ Buffer.decode Buffer.Idle y.
Proof.
  revert st. induction x as [| c x IH]; intros st Hend.
  - cbn in Hend. subst st. reflexivity.
  - cbn [append Buffer.decode Buffer.pending_after] in *.
    destruct (Buffer.feed st c) as [emitted st']. cbn [snd] in Hend.
    rewrite (IH st' Hend). symmetry. apply append_assoc.
Qed.

(** X4: how the network cuts the response body into chunks does not
    matter as long as no cut falls inside a multi-byte character: a
    response in which a chunk arrives split in two at a character boundary
    is logged and settled as the unsplit one. *)
Theorem chunking_at_character_boundary (statusCode : Z)
  (before after : list string) (x y : string) :
  Buffer.pending_after Buffer.Idle x = Buffer.Idle ->
  sendToSlack_settle
      (Response statusCode (before ++ [(x ++ y)%string] ++ after)%list)
    = sendToSlack_settle (Response statusCode (before ++ [x; y] ++ after)%list).
Proof.
  intros Hend.
  assert (Hbody : responseData (before ++ [(x ++ y)%string] ++ after)%list
                  = responseData (before ++ [x; y] ++ after)%list).
  { rewrite !responseData_app. do 2 f_equal.
    rewrite !responseData_cons. unfold Buffer.toString.
    rewrite (decode_app x y Buffer.Idle Hend).
    change (responseData []) with EmptyString.
    rewrite !append_empty_r. reflexivity. }
  unfold sendToSlack_settle. cbv zeta. rewrite Hbody. reflexivity.
Qed.

Lemma chunking_at_character_boundary_witness :
  sendToSlack_settle (Response 200 ["café ok"])
    = sendToSlack_settle (Response 200 ["café"; " ok"])
  /\ snd (sendToSlack_settle (Response 200 ["café"; " ok"])) = Resolved "café ok".
Proof.
  split; [| reflexivity].
  apply (chunking_at_character_boundary 200 [] [] "café" " ok"). reflexivity.
Defined.

(** ** The driver over whole runs *)

Section RunFacts.

Variable URL_parse : string -> JsError + URL.
Variable SLACK_WEBHOOK_URL : string.

#[local] Abbreviation step_ := (step URL_parse SLACK_WEBHOOK_URL).
#[local] Abbreviation run_ := (run URL_parse SLACK_WEBHOOK_URL).
#[local] Abbreviation begin_ := (updateCountdown_begin URL_parse SLACK_WEBHOOK_URL).

Lemma run_cons (st : Process) (ev : Event) (events : list Event) :
  run_ st (ev :: events) = run_ (step_ st ev) events.
Proof. reflexivity. Qed.

Lemma length_drop_nth {A : Type} (k : nat) (l : list A) :
  (List.length (drop_nth k l) <= List.length l)%nat.
Proof.
  unfold drop_nth. rewrite length_app, length_firstn, length_skipn. lia.
Qed.

(** The end of a delivery adds no tick and no request, whatever its
    outcome. *)
Lemma resume_keeps (timeRemaining : TimeRemaining) (o : Outcome) (st : Process) :
  ticks (updateCountdown_resume timeRemaining o st) = ticks st
  /\ requests (updateCountdown_resume timeRemaining o st) = requests st
  /\ awaiting (updateCountdown_resume timeRemaining o st) = awaiting st
  /\ exited (updateCountdown_resume timeRemaining o st) = exited st.
Proof.
  unfold updateCountdown_resume.
  destruct (sendToSlack_settle o) as [logged [value | error]];
    [destruct (hasStarted timeRemaining) |]; cbn; repeat split.
Qed.

(** A callback runs at most one tick, and only the timer's does; a tick
    makes at most one request. *)
Lemma step_ticks (st : Process) (ev : Event) :
  (ticks (step_ st ev) <= ticks st + timer_firings [ev])%nat
  /\ (List.length (requests (step_ st ev)) - List.length (requests st)
        <= ticks (step_ st ev) - ticks st)%nat
  /\ (List.length (requests st) <= List.length (requests (step_ st ev)))%nat
  /\ (ticks st <= ticks (step_ st ev))%nat.
Proof.
  unfold step. destruct (exited st) as [code |]; [destruct ev; cbn; lia |].
  destruct ev as [now | k o | | error]; cbn [timer_firings].
  - destruct (countdownInterval st); [| lia].
    unfold updateCountdown_begin.
    destruct (sendToSlack_request _ _ _); cbn [ticks requests];
      rewrite ?length_app; cbn [List.length]; lia.
  - destruct (nth_error (awaiting st) k) as [timeRemaining |]; [| lia].
    match goal with
    | |- context [updateCountdown_resume ?t ?o ?s] =>
        destruct (resume_keeps t o s) as (Ht & Hr & _ & _)
    end.
    rewrite Ht, Hr. cbn [ticks requests]. lia.
  - cbn. lia.
  - cbn. lia.
Qed.

Lemma run_ticks (events : list Event) (st : Process) :
  (ticks (run_ st events) <= ticks st + timer_firings events)%nat
  /\ (List.length (requests (run_ st events)) - List.length (requests st)
        <= ticks (run_ st events) - ticks st)%nat
  /\ (List.length (requests st) <= List.length (requests (run_ st events)))%nat
  /\ (ticks st <= ticks (run_ st events))%nat.
Proof.
  revert st. induction events as [| ev events IH]; intros st.
  - cbn. lia.
  - rewrite run_cons.
    destruct (step_ticks st ev) as (H1 & H2 & H3 & H4).
    destruct (IH (step_ st ev)) as (G1 & G2 & G3 & G4).
    assert (Hf : timer_firings (ev :: events)
                 = (timer_firings [ev] + timer_firings events)%nat)
      by (destruct ev; reflexivity).
    rewrite Hf. lia.
Qed.

(** Only the handler of SIGINT calls [process.exit] once the process has
    started. *)
Lemma step_no_exit (st : Process) (ev : Event) :
  exited st = None -> is_SIGINT ev = false -> exited (step_ st ev) = None.
Proof.
  intros He Hev. unfold step. rewrite He.
  destruct ev as [now | k o | | error]; cbn; try discriminate Hev.
  - destruct (countdownInterval st); [| exact He].
    destruct (begin_counts URL_parse SLACK_WEBHOOK_URL now st) as (_ & _ & H).
    rewrite H. exact He.
  - destruct (nth_error (awaiting st) k) as [timeRemaining |]; [| exact He].
    match goal with
    | |- context [updateCountdown_resume ?t ?o ?s] =>
        destruct (resume_keeps t o s) as (_ & _ & _ & H)
    end.
    rewrite H. reflexivity.
  - reflexivity.
Qed.

End RunFacts.

Lemma start_ticks (URL_parse : string -> JsError + URL) (zone : string)
  (env : option string) (now : Z) :
  (List.length (requests (start URL_parse zone env now))
     <= ticks (start URL_parse zone env now) <= 1)%nat.
Proof.
  unfold start. destruct (js_not env); [cbn; lia |].
  unfold updateCountdown_begin.
  destruct (sendToSlack_request _ _ _); cbn; lia.
Qed.

(** X5: the process never retries and never ticks on its own: in every
    run, whatever the configuration, there are at most as many requests as
    ticks, and at most one tick more than the timer has fired. *)
Theorem no_request_without_tick (URL_parse : string -> JsError + URL)
  (zone : string) (env : option string) (now : Z) (events : list Event) :
  (List.length (requests (program URL_parse zone env now events))
     <= ticks (program URL_parse zone env now events)
     <= 1 + timer_firings events)%nat.
Proof.
  unfold program.
  match goal with
  | |- context [run ?p ?a ?s events] =>
      destruct (run_ticks p a events s) as (H1 & H2 & H3 & H4)
  end.
  pose proof (start_ticks URL_parse zone env now). lia.
Qed.

(** X6: SIGINT ends the process at once with status 0: the shutdown line
    is logged, the timer is cleared, no tick or request is added, and
    nothing that happens later (a timer firing, the end of a delivery still
    in flight) has any effect. *)
Theorem sigint_shuts_down (URL_parse : string -> JsError + URL)
  (SLACK_WEBHOOK_URL : string) (st : Process) :
  exited st = None ->
  let st' := step URL_parse SLACK_WEBHOOK_URL st SIGINT in
  exited st' = Some 0
  /\ console st' =
       (console st
          ++ [console_log (String LF "Shutting down countdown bot...")])%list
  /\ countdownInterval st' = false
  /\ ticks st' = ticks st
  /\ requests st' = requests st
  /\ awaiting st' = awaiting st
  /\ forall events, run URL_parse SLACK_WEBHOOK_URL st' events = st'.
Proof.
  intros He st'. subst st'.
  assert (Hstep : step URL_parse SLACK_WEBHOOK_URL st SIGINT =
            mkProcess false (awaiting st) (requests st) (ticks st)
              (console st
                 ++ [console_log (String LF "Shutting down countdown bot...")])%list
              (Some 0))
    by (unfold step; rewrite He; reflexivity).
  rewrite Hstep. cbn [exited console countdownInterval ticks requests awaiting].
  repeat (split; [reflexivity |]).
  intros events. apply (run_after_exit _ _ events _ 0). reflexivity.
Qed.

Lemma sigint_shuts_down_witness :
  let address := "https://hooks.slack.com/services/T0/B0/XYZ" in
  let zone := "Fri Jul 18 2025 17:00:00 GMT-0700 (Pacific Daylight Time)" in
  let st :=
    program https_URL zone (Some address) (TARGET_DATE - 3600000)
      [SIGINT; DeliveryEnds 0 (Response 200 ["ok"]);
       TimerFires (TARGET_DATE - 3540000)] in
  exited st = Some 0 /\ ticks st = 1%nat
  /\ console st =
       [console_log "Starting Dreamers in Tech Hackathon countdown bot...";
        console_log ("Target date: " ++ zone);
        console_log "Update interval: 60 seconds";
        console_log (String LF "Shutting down countdown bot...")].
Proof.
  intros address zone st.
  destruct (sigint_shuts_down https_URL address
              (start https_URL zone (Some address) (TARGET_DATE - 3600000))
              eq_refl) as (Hexit & Hconsole & _ & Hticks & _ & _ & Hlater).
  subst st. unfold program. rewrite run_cons, Hlater.
  split; [exact Hexit |]. split; [rewrite Hticks | rewrite Hconsole]; reflexivity.
Defined.

(** X7: only the handler of SIGINT calls [process.exit] in a process that
    has started: no response, failed delivery or uncaught exception does. *)
Theorem only_sigint_exits (URL_parse : string -> JsError + URL)
  (SLACK_WEBHOOK_URL : string) (events : list Event) (st : Process) :
  exited st = None ->
  existsb is_SIGINT events = false ->
  exited (run URL_parse SLACK_WEBHOOK_URL st events) = None.
Proof.
  revert st. induction events as [| ev events IH]; intros st He Hnone.
  - exact He.
  - cbn [existsb] in Hnone. apply orb_false_iff in Hnone as [Hev Hrest].
    rewrite run_cons. apply IH; [| exact Hrest].
    apply step_no_exit; assumption.
Qed.

Lemma only_sigint_exits_witness :
  let address := "https://hooks.slack.com/services/T0/B0/XYZ" in
  let zone := "Fri Jul 18 2025 17:00:00 GMT-0700 (Pacific Daylight Time)" in
  exited (program https_URL zone (Some address) (TARGET_DATE - 3600000)
            [DeliveryEnds 0 (RequestError (mkError "Error" "socket hang up"));
             UncaughtException (mkError "TypeError" "x is not a function");
             TimerFires (TARGET_DATE - 3540000);
             DeliveryEnds 0 (Response 503 ["busy"])]) = None.
Proof.
  intros address zone. unfold program.
  apply (only_sigint_exits https_URL address); reflexivity.
Defined.

Lemma begin_parsed (URL_parse : string -> JsError + URL)
  (SLACK_WEBHOOK_URL : string) (url : URL) (now : Z) (st : Process) :
  URL_parse SLACK_WEBHOOK_URL = inr url ->
  exists req,
    sendToSlack_request URL_parse SLACK_WEBHOOK_URL
      (formatCountdownMessage (getTimeRemaining TARGET_DATE now)) = inr req
    /\ posted_to url req
    /\ updateCountdown_begin URL_parse SLACK_WEBHOOK_URL now st =
         {| countdownInterval := countdownInterval st;
            awaiting := (awaiting st ++ [getTimeRemaining TARGET_DATE now])%list;
            requests := (requests st ++ [req])%list;
            ticks := S (ticks st);
            console := console st;
            exited := exited st |}.
Proof.
  intros Hurl. unfold updateCountdown_begin.
  rewrite (sendToSlack_request_parsed _ _ url) by exact Hurl.
  eexists. split; [reflexivity |]. split; [| reflexivity].
  unfold posted_to. cbn [options written opt_method opt_hostname opt_path opt_headers].
  repeat (split; [reflexivity |]). exists now. reflexivity.
Qed.

(** X8: a tick at or after the target whose delivery is answered with 200
    stops the countdown for good: the timer is cleared, and whatever
    happens afterwards no further tick runs and no further request is
    made. *)
Theorem reached_tick_delivered_stops (URL_parse : string -> JsError + URL)
  (SLACK_WEBHOOK_URL : string) (url : URL) (st : Process) (now : Z)
  (chunks : list string) (events : list Event) :
  exited st = None ->
  countdownInterval st = true ->
  URL_parse SLACK_WEBHOOK_URL = inr url ->
  TARGET_DATE <= now ->
  let st1 := step URL_parse SLACK_WEBHOOK_URL st (TimerFires now) in
  let st2 :=
    step URL_parse SLACK_WEBHOOK_URL st1
      (DeliveryEnds (List.length (awaiting st)) (Response 200 chunks)) in
  let st3 := run URL_parse SLACK_WEBHOOK_URL st2 events in
  countdownInterval st3 = false
  /\ ticks st3 = S (ticks st)
  /\ List.length (requests st3) = S (List.length (requests st)).
Proof.
  intros He Ht Hurl Hnow st1 st2 st3.
  destruct (begin_parsed URL_parse SLACK_WEBHOOK_URL url now st Hurl)
    as (req & _ & _ & Hbegin).
  assert (H1 : st1 =
            mkProcess true (awaiting st ++ [mkTimeRemaining 0 0 0 0 true])%list
              (requests st ++ [req])%list (S (ticks st)) (console st) None).
  { subst st1. unfold step. rewrite He, Ht, Hbegin, He, Ht.
    rewrite getTimeRemaining_reached by lia. reflexivity. }
  assert (Hk : nth_error (awaiting st1) (List.length (awaiting st))
               = Some (mkTimeRemaining 0 0 0 0 true)).
  { rewrite H1. cbn [awaiting].
    rewrite nth_error_app2, Nat.sub_diag by lia. reflexivity. }
  destruct (step_delivery_ok_reached URL_parse SLACK_WEBHOOK_URL st1
              (List.length (awaiting st)) (mkTimeRemaining 0 0 0 0 true) chunks)
    as (Hcleared & Hticks); [rewrite H1; reflexivity | exact Hk | reflexivity |].
  assert (Hreq : requests st2 = requests st1).
  { subst st2. unfold step. rewrite H1 at 1. cbn [exited]. rewrite Hk.
    match goal with
    | |- requests (updateCountdown_resume ?t ?o ?s) = _ =>
        destruct (resume_keeps t o s) as (_ & Hr & _ & _); rewrite Hr
    end.
    reflexivity. }
  fold st2 in Hcleared, Hticks.
  destruct (run_stopped URL_parse SLACK_WEBHOOK_URL events st2 Hcleared)
    as (G1 & G2 & G3).
  fold st3 in G1, G2, G3.
  rewrite G1, G2, G3, Hticks, Hreq, H1. cbn [ticks requests].
  rewrite length_app. cbn [List.length]. repeat split; lia.
Qed.

Lemma reached_tick_delivered_stops_witness :
  let address := "https://hooks.slack.com/services/T0/B0/XYZ" in
  let zone := "Fri Jul 18 2025 17:00:00 GMT-0700 (Pacific Daylight Time)" in
  let st :=
    program https_URL zone (Some address) (TARGET_DATE - 30000)
      [DeliveryEnds 0 (Response 200 ["ok"]);
       TimerFires (TARGET_DATE + 30000);
       DeliveryEnds 0 (Response 200 ["ok"]);
       TimerFires (TARGET_DATE + 90000);
       TimerFires (TARGET_DATE + 150000)] in
  countdownInterval st = false /\ ticks st = 2%nat.
Proof.
  intros address zone st.
  destruct (reached_tick_delivered_stops https_URL address
              (mkURL "https:" "hooks.slack.com" EmptyString "/services/T0/B0/XYZ"
                     EmptyString EmptyString)
              (step https_URL address
                 (start https_URL zone (Some address) (TARGET_DATE - 30000))
                 (DeliveryEnds 0 (Response 200 ["ok"])))
              (TARGET_DATE + 30000) ["ok"]
              [TimerFires (TARGET_DATE + 90000); TimerFires (TARGET_DATE + 150000)])
    as (Hcleared & Hticks & _).
  - reflexivity.
  - reflexivity.
  - reflexivity.
  - vm_compute. discriminate.
  - split; [exact Hcleared | exact Hticks].
Defined.

Section Addressed.

Variable URL_parse : string -> JsError + URL.
Variable SLACK_WEBHOOK_URL : string.

(** *** An address that parses *)

Lemma step_posted (url : URL) (st : Process) (ev : Event) :
  URL_parse SLACK_WEBHOOK_URL = inr url ->
  List.length (requests st) = ticks st ->
  Forall (posted_to url) (requests st) ->
  List.length (requests (step URL_parse SLACK_WEBHOOK_URL st ev))
    = ticks (step URL_parse SLACK_WEBHOOK_URL st ev)
  /\ Forall (posted_to url) (requests (step URL_parse SLACK_WEBHOOK_URL st ev)).
Proof.
  intros Hurl Hcount Hall. unfold step.
  destruct (exited st) as [code |]; [auto |].
  destruct ev as [now | k o | | error]; cbn [ticks requests]; auto.
  - destruct (countdownInterval st); [| auto].
    destruct (begin_parsed URL_parse SLACK_WEBHOOK_URL url now st Hurl)
      as (req & _ & Hreq & Hbegin).
    rewrite Hbegin. cbn [ticks requests]. split.
    + rewrite length_app. cbn [List.length]. lia.
    + apply Forall_app. split; [exact Hall | constructor; [exact Hreq | constructor]].
  - destruct (nth_error (awaiting st) k) as [timeRemaining |]; [| auto].
    match goal with
    | |- context [updateCountdown_resume ?t ?o ?s] =>
        destruct (resume_keeps t o s) as (Ht & Hr & _ & _)
    end.
    rewrite Ht, Hr. cbn [ticks requests]. auto.
Qed.

Lemma run_posted (url : URL) (events : list Event) (st : Process) :
  URL_parse SLACK_WEBHOOK_URL = inr url ->
  List.length (requests st) = ticks st ->
  Forall (posted_to url) (requests st) ->
  List.length (requests (run URL_parse SLACK_WEBHOOK_URL st events))
    = ticks (run URL_parse SLACK_WEBHOOK_URL st events)
  /\ Forall (posted_to url) (requests (run URL_parse SLACK_WEBHOOK_URL st events)).
Proof.
  intros Hurl. revert st.
  induction events as [| ev events IH]; intros st Hcount Hall; [auto |].
  rewrite run_cons.
  destruct (step_posted url st ev Hurl Hcount Hall) as [Hc Ha].
  apply IH; assumption.
Qed.

(** *** An address that [new URL] refuses *)

Lemma step_unparsable (thrown : JsError) (st : Process) (ev : Event) :
  URL_parse SLACK_WEBHOOK_URL = inl thrown ->
  requests st = [] -> awaiting st = [] ->
  requests (step URL_parse SLACK_WEBHOOK_URL st ev) = []
  /\ awaiting (step URL_parse SLACK_WEBHOOK_URL st ev) = []
  /\ (exited st = None -> countdownInterval st = true -> is_SIGINT ev = false ->
      exited (step URL_parse SLACK_WEBHOOK_URL st ev) = None
      /\ countdownInterval (step URL_parse SLACK_WEBHOOK_URL st ev) = true
      /\ ticks (step URL_parse SLACK_WEBHOOK_URL st ev)
           = (ticks st + timer_firings [ev])%nat).
Proof.
  intros Hurl Hreq Haw. unfold step.
  destruct (exited st) as [code |] eqn:Hex;
    [split; [exact Hreq |]; split; [exact Haw |]; intros He; discriminate He |].
  destruct ev as [now | k o | | error]; cbn [timer_firings].
  - unfold updateCountdown_begin, sendToSlack_request. rewrite Hurl.
    destruct (countdownInterval st);
      cbn [requests awaiting exited countdownInterval ticks];
      (split; [exact Hreq |]; split; [exact Haw |]; intros He Ht _;
       try discriminate Ht; repeat split; (exact Hex || reflexivity || lia)).
  - rewrite Haw.
    assert (Hk : nth_error (@nil TimeRemaining) k = None) by (destruct k; reflexivity).
    rewrite Hk. split; [exact Hreq |]. split; [exact Haw |].
    intros He Ht _. repeat split; (exact Hex || exact Ht || reflexivity || lia).
  - cbn [requests awaiting]. split; [exact Hreq |]. split; [exact Haw |].
    intros _ _ Hev. discriminate Hev.
  - cbn [requests awaiting exited countdownInterval ticks].
    split; [exact Hreq |]. split; [exact Haw |].
    intros He Ht _. repeat split; (exact Hex || exact Ht || reflexivity || lia).
Qed.

Lemma run_unparsable (thrown : JsError) (events : list Event) (st : Process) :
  URL_parse SLACK_WEBHOOK_URL = inl thrown ->
  requests st = [] -> awaiting st = [] ->
  requests (run URL_parse SLACK_WEBHOOK_URL st events) = []
  /\ awaiting (run URL_parse SLACK_WEBHOOK_URL st events) = []
  /\ (exited st = None -> countdownInterval st = true ->
      existsb is_SIGINT events = false ->
      exited (run URL_parse SLACK_WEBHOOK_URL st events) = None
      /\ countdownInterval (run URL_parse SLACK_WEBHOOK_URL st events) = true
      /\ ticks (run URL_parse SLACK_WEBHOOK_URL st events)
           = (ticks st + timer_firings events)%nat).
Proof.
  intros Hurl. revert st.
  induction events as [| ev events IH]; intros st Hreq Haw.
  - cbn. repeat split; auto; lia.
  - rewrite run_cons.
    destruct (step_unparsable thrown st ev Hurl Hreq Haw) as (Hr & Ha & Hlive).
    destruct (IH _ Hr Ha) as (Gr & Ga & Glive).
    split; [exact Gr |]. split; [exact Ga |].
    intros He Ht Hnone. cbn [existsb] in Hnone.
    apply orb_false_iff in Hnone as [Hev Hrest].
    destruct (Hlive He Ht Hev) as (He' & Ht' & Hticks).
    destruct (Glive He' Ht' Hrest) as (He'' & Ht'' & Hticks'').
    split; [exact He'' |]. split; [exact Ht'' |].
    rewrite Hticks'', Hticks.
    assert (Hf : timer_firings (ev :: events)
                 = (timer_firings [ev] + timer_firings events)%nat)
      by (destruct ev; reflexivity).
    rewrite Hf. lia.
Qed.

End Addressed.

Lemma start_configured (URL_parse : string -> JsError + URL) (zone : string)
  (address : string) (now : Z) :
  address <> EmptyString ->
  start URL_parse zone (Some address) now =
    let st :=
      updateCountdown_begin URL_parse address now
        (mkProcess false [] [] 0
           [console_log "Starting Dreamers in Tech Hackathon countdown bot...";
            console_log ("Target date: " ++ zone);
            console_log "Update interval: 60 seconds"]
           None) in
    mkProcess true (awaiting st) (requests st) (ticks st) (console st) (exited st).
Proof.
  intros Hne. destruct address as [| c address]; [contradiction | reflexivity].
Qed.

(** X9: with an address that parses, every tick of every run makes
    exactly one request, and every request ever made is a POST of JSON to
    the host and path of that address whose body is the message for some
    clock reading. *)
Theorem every_tick_posts_once (URL_parse : string -> JsError + URL)
  (zone address : string) (url : URL) (now : Z) (events : list Event) :
  address <> EmptyString ->
  URL_parse address = inr url ->
  let st := program URL_parse zone (Some address) now events in
  List.length (requests st) = ticks st
  /\ Forall (posted_to url) (requests st).
Proof.
  intros Hne Hurl st. subst st. unfold program.
  rewrite start_configured by exact Hne. cbv zeta.
  match goal with
  | |- context [updateCountdown_begin ?p ?a ?n ?s] =>
      destruct (begin_parsed p a url n s Hurl) as (req & _ & Hreq & Hbegin)
  end.
  rewrite Hbegin. cbn [awaiting requests ticks console exited app].
  apply run_posted with (url := url); [exact Hurl | reflexivity |].
  constructor; [exact Hreq | constructor].
Qed.

Lemma every_tick_posts_once_witness :
  let address := "https://hooks.slack.com/services/T0/B0/XYZ?token=abc" in
  let zone := "Fri Jul 18 2025 17:00:00 GMT-0700 (Pacific Daylight Time)" in
  let st :=
    program https_URL zone (Some address) (TARGET_DATE - 90000)
      [TimerFires (TARGET_DATE - 30000);
       DeliveryEnds 1 (Response 200 ["ok"]);
       DeliveryEnds 0 (Response 500 ["late"]);
       TimerFires (TARGET_DATE + 30000)] in
  List.length (requests st) = 3%nat /\ ticks st = 3%nat
  /\ map (fun req => opt_path (options req)) (requests st)
       = ["/services/T0/B0/XYZ"; "/services/T0/B0/XYZ"; "/services/T0/B0/XYZ"].
Proof.
  intros address zone st.
  destruct (every_tick_posts_once https_URL zone address
              (mkURL "https:" "hooks.slack.com" EmptyString "/services/T0/B0/XYZ"
                     "?token=abc" EmptyString)
              (TARGET_DATE - 90000)
              [TimerFires (TARGET_DATE - 30000);
               DeliveryEnds 1 (Response 200 ["ok"]);
               DeliveryEnds 0 (Response 500 ["late"]);
               TimerFires (TARGET_DATE + 30000)])
    as (Hcount & _).
  - discriminate.
  - reflexivity.
  - fold address zone st in Hcount.
    assert (Hticks : ticks st = 3%nat) by reflexivity.
    split; [rewrite Hcount; exact Hticks |]. split; [exact Hticks | reflexivity].
Defined.

Lemma run_unparsable_console (URL_parse : string -> JsError + URL)
  (SLACK_WEBHOOK_URL : string) (thrown : JsError) (events : list Event)
  (st : Process) :
  URL_parse SLACK_WEBHOOK_URL = inl thrown ->
  requests st = [] -> awaiting st = [] ->
  exited st = None -> countdownInterval st = true ->
  existsb is_SIGINT events = false ->
  console (run URL_parse SLACK_WEBHOOK_URL st events)
    = (console st ++ catch_log thrown events)%list.
Proof.
  intros Hurl. revert st.
  induction events as [| ev events IH]; intros st Hreq Haw He Ht Hnone.
  - cbn. rewrite app_nil_r. reflexivity.
  - cbn [existsb] in Hnone. apply orb_false_iff in Hnone as [Hev Hrest].
    rewrite run_cons.
    destruct (step_unparsable URL_parse SLACK_WEBHOOK_URL thrown st ev Hurl Hreq Haw)
      as (Hr & Ha & Hlive).
    destruct (Hlive He Ht Hev) as (He' & Ht' & _).
    rewrite (IH _ Hr Ha He' Ht' Hrest).
    assert (Hconsole : console (step URL_parse SLACK_WEBHOOK_URL st ev)
                       = (console st ++ catch_log thrown [ev])%list).
    { unfold step. rewrite He.
      destruct ev as [now | k o | | error]; cbn [catch_log].
      - rewrite Ht. unfold updateCountdown_begin, sendToSlack_request.
        rewrite Hurl. reflexivity.
      - rewrite Haw.
        assert (Hk : nth_error (@nil TimeRemaining) k = None)
          by (destruct k; reflexivity).
        rewrite Hk, app_nil_r. reflexivity.
      - discriminate Hev.
      - reflexivity. }
    rewrite Hconsole, <- app_assoc. f_equal.
    destruct ev; reflexivity.
Qed.

(** X10: with an address that [new URL] refuses, no request is ever made
    and no delivery is ever awaited: every tick ends in the [catch] of
    [updateCountdown], which logs the error thrown; nothing ever clears the
    timer, and until SIGINT the process keeps ticking at every firing,
    after the target instant too. *)
Theorem unparsable_address_never_posts (URL_parse : string -> JsError + URL)
  (zone address : string) (thrown : JsError) (now : Z) (events : list Event) :
  address <> EmptyString ->
  URL_parse address = inl thrown ->
  let st := program URL_parse zone (Some address) now events in
  requests st = []
  /\ awaiting st = []
  /\ (existsb is_SIGINT events = false ->
      exited st = None
      /\ countdownInterval st = true
      /\ ticks st = S (timer_firings events)
      /\ console st =
           ([console_log "Starting Dreamers in Tech Hackathon countdown bot...";
             console_log ("Target date: " ++ zone);
             console_log "Update interval: 60 seconds";
             console_error "Failed to update countdown:" (Some thrown)]
              ++ catch_log thrown events)%list).
Proof.
  intros Hne Hurl st. subst st. unfold program.
  assert (Hstart :
            start URL_parse zone (Some address) now
              = mkProcess true [] [] 1
                  [console_log "Starting Dreamers in Tech Hackathon countdown bot...";
                   console_log ("Target date: " ++ zone);
                   console_log "Update interval: 60 seconds";
                   console_error "Failed to update countdown:" (Some thrown)]
                  None).
  { rewrite start_configured by exact Hne. cbv zeta.
    unfold updateCountdown_begin, sendToSlack_request. rewrite Hurl.
    reflexivity. }
  rewrite Hstart.
  match goal with
  | |- context [run _ _ ?s events] =>
      destruct (run_unparsable URL_parse address thrown events s Hurl
                  eq_refl eq_refl) as (Hreq & Haw & Hlive);
      pose proof (run_unparsable_console URL_parse address thrown events s Hurl
                    eq_refl eq_refl eq_refl eq_refl) as Hconsole
  end.
  split; [exact Hreq |]. split; [exact Haw |].
  intros Hnone. destruct (Hlive eq_refl eq_refl Hnone) as (He & Ht & Hticks).
  split; [exact He |]. split; [exact Ht |].
  split; [rewrite Hticks; reflexivity | exact (Hconsole Hnone)].
Qed.

Lemma unparsable_address_never_posts_witness :
  let zone := "Fri Jul 18 2025 17:00:00 GMT-0700 (Pacific Daylight Time)" in
  let thrown := mkError "TypeError" "Invalid URL" in
  let st :=
    program https_URL zone (Some "hooks.slack.com/services/T0/B0/XYZ")
      (TARGET_DATE - 30000)
      [TimerFires (TARGET_DATE + 30000); TimerFires (TARGET_DATE + 90000)] in
  requests st = [] /\ awaiting st = [] /\ countdownInterval st = true
  /\ ticks st = 3%nat
  /\ console st =
       [console_log "Starting Dreamers in Tech Hackathon countdown bot...";
        console_log ("Target date: " ++ zone);
        console_log "Update interval: 60 seconds";
        console_error "Failed to update countdown:" (Some thrown);
        console_error "Failed to update countdown:" (Some thrown);
        console_error "Failed to update countdown:" (Some thrown)].
Proof.
  intros zone thrown st.
  destruct (unparsable_address_never_posts https_URL zone
              "hooks.slack.com/services/T0/B0/XYZ"
              thrown (TARGET_DATE - 30000)
              [TimerFires (TARGET_DATE + 30000); TimerFires (TARGET_DATE + 90000)])
    as (Hreq & Haw & Hlive).
  - discriminate.
  - reflexivity.
  - destruct (Hlive eq_refl) as (_ & Ht & Hticks & Hconsole).
    split; [exact Hreq |]. split; [exact Haw |]. split; [exact Ht |].
    split; [exact Hticks | exact Hconsole].
Defined.

(** ** The last second *)

(** X11: through the whole last second before the target the calculator
    reports four zero fields and [hasStarted = false]: the countdown
    message with 0 days and 00:00:00 is what is posted then, not the
    "has begun" message. *)
Theorem last_second_is_all_zero (target now : Z) :
  0 < target - now < 1000 ->
  getTimeRemaining target now = mkTimeRemaining 0 0 0 0 false.
Proof.
  intros Hd. rewrite getTimeRemaining_running by lia. cbv zeta.
  rewrite !Z.rem_small by lia.
  rewrite !Z.div_small by lia. reflexivity.
Qed.

Lemma last_second_is_all_zero_witness :
  getTimeRemaining TARGET_DATE (TARGET_DATE - 999) = mkTimeRemaining 0 0 0 0 false.
Proof.
  apply (last_second_is_all_zero TARGET_DATE (TARGET_DATE - 999)).
  vm_compute. split; reflexivity.
Defined.

(** ** Content-Length of any message *)

Lemma JsValue_induction (P : JsValue -> Prop) :
  (forall s, P (JStr s)) ->
  (forall n, P (JNum n)) ->
  (forall items, Forall P items -> P (JArr items)) ->
  (forall props, Forall (fun kv => P (snd kv)) props -> P (JObj props)) ->
  forall v, P v.
Proof.
  intros HStr HNum HArr HObj. fix IH 1. intros [s | n | items | props].
  - apply HStr.
  - apply HNum.
  - apply HArr. induction items as [| item items IHitems]; constructor;
      [apply IH | exact IHitems].
  - apply HObj. induction props as [| [key value] props IHprops]; constructor;
      [apply IH | exact IHprops].
Qed.

Lemma excess_commas (parts : list string) :
  excess (JSON.commas parts) = sumZ (map excess parts).
Proof.
  induction parts as [| part parts IH]; [reflexivity |].
  destruct parts as [| next parts].
  - cbn. lia.
  - change (JSON.commas (part :: next :: parts))
      with (part ++ "," ++ JSON.commas (next :: parts)).
    rewrite !excess_app, IH. cbn [map sumZ fold_right].
    change (excess ",") with 0. lia.
Qed.

(** The excess of the JSON text of a value is that of its strings and
    property names: brackets, commas, colons, escapes and numbers are
    ASCII. *)
Lemma excess_stringify (v : JsValue) :
  excess (JSON.stringify v) = excess_value v.
Proof.
  induction v as [s | n | items IH | props IH] using JsValue_induction;
    cbn [JSON.stringify excess_value].
  - apply excess_quote.
  - apply excess_ofNumber.
  - rewrite !excess_app, excess_commas, map_map.
    change (excess "[") with 0. change (excess "]") with 0.
    assert (Hmap : map (fun item => excess (JSON.stringify item)) items
                   = map excess_value items).
    { induction IH as [| item items Hitem _ IHitems]; [reflexivity |].
      cbn [map]. rewrite Hitem, IHitems. reflexivity. }
    rewrite Hmap. lia.
  - rewrite !excess_app, excess_commas, map_map.
    change (excess "{") with 0. change (excess "}") with 0.
    assert (Hmap :
      map (fun kv => excess (JSON.quote (fst kv) ++ ":" ++ JSON.stringify (snd kv)))
          props
      = map (fun kv => excess (fst kv) + excess_value (snd kv)) props).
    { induction IH as [| kv props Hkv _ IHprops]; [reflexivity |].
      cbn [map]. rewrite IHprops, !excess_app, excess_quote, Hkv.
      change (excess ":") with 0. f_equal; lia. }
    rewrite Hmap. lia.
Qed.

(** X12: for any message, the body [sendToSlack] writes is longer than
    the [Content-Length] it announces by exactly the excess of the
    message's text, the bytes of its strings and property names beyond
    their UTF-16 code units. *)
Theorem content_length_off_by_excess (URL_parse : string -> JsError + URL)
  (SLACK_WEBHOOK_URL : string) (url : URL) (message : JsValue) :
  URL_parse SLACK_WEBHOOK_URL = inr url ->
  exists req n,
    sendToSlack_request URL_parse SLACK_WEBHOOK_URL message = inr req
    /\ header "Content-Length" (opt_headers (options req)) = Some (HNum n)
    /\ Z.of_nat (JsString.byteLength (written req)) = n + excess_value message.
Proof.
  intros Hurl. rewrite (sendToSlack_request_parsed _ _ url) by exact Hurl.
  eexists. eexists. split; [reflexivity |].
  cbn [options written opt_headers]. split; [reflexivity |].
  pose proof (excess_stringify message) as He. unfold excess in He. lia.
Qed.

Lemma content_length_off_by_excess_witness :
  exists req,
    sendToSlack_request https_URL "https://hooks.slack.com/services/T0/B0/XYZ"
      (JObj [("text", JStr "café")]) = inr req
    /\ header "Content-Length" (opt_headers (options req)) = Some (HNum 15)
    /\ JsString.byteLength (written req) = 16%nat
    /\ excess_value (JObj [("text", JStr "café")]) = 1.
Proof.
  destruct (content_length_off_by_excess https_URL
              "https://hooks.slack.com/services/T0/B0/XYZ"
              (mkURL "https:" "hooks.slack.com" EmptyString "/services/T0/B0/XYZ"
                     EmptyString EmptyString)
              (JObj [("text", JStr "café")]) eq_refl)
    as (req & n & Hreq & _ & _).
  exists req. split; [exact Hreq |].
  vm_compute in Hreq. injection Hreq as <-. repeat split.
Defined.
